(** * workflow-pathoscope: the pipeline steps of [workflow.py]

    A shallow embedding of the workflow steps ([map_default_isolates],
    [write_isolate_fasta], [build_isolate_index], [map_isolates],
    [map_subtractions], [subtract_mapping], [reassignment]) together with
    the Python operations they rely on, and the properties of the steps
    that the specification states.

    Conventions.
    - A Python exception is a value [Raise e] of [result]; a step or a
      handler is a computation in the state-and-exception monad [M].
    - The fixtures supplied by the framework and the [pathoscope] and
      [index] objects are collaborators whose code is not part of
      [workflow.py]: they are record fields or section variables.
    - A [str] is a [string]; [bytes] are a [string] too and [decode] is a
      collaborator.  A [float] score is a value of an abstract type with
      its comparison; the arithmetic on coverage arrays is carried out on
      exact rationals. *)

From Stdlib Require Import ZArith QArith Qround Lqa Strings.String Strings.Ascii List Lia.
From stdpp Require Import gmap strings list fin_maps pretty.

Set Warnings "-register-all".

Local Open Scope Z_scope.
Local Open Scope string_scope.

(** ** Python values and exceptions *)

Module Py.

Inductive exn : Type :=
| IndexError
| ValueError
| KeyError
| TypeError
| ZeroDivisionError
| AttributeError
| UnicodeDecodeError
| ExternalError (tag : string).

Inductive result (A : Type) : Type :=
| Ok (a : A)
| Raise (e : exn).
Arguments Ok {A} a.
Arguments Raise {A} e.

(** State and exception: the state reached when an exception is raised
    is kept, as a Python object mutated before a [raise] stays mutated. *)
Definition M (S A : Type) : Type := S -> result A * S.

Definition ret {S A} (a : A) : M S A := fun s => (Ok a, s).

Definition bind {S A B} (m : M S A) (k : A -> M S B) : M S B :=
  fun s => match m s with
           | (Ok a, s') => k a s'
           | (Raise e, s') => (Raise e, s')
           end.

Definition lift {S A} (r : result A) : M S A := fun s => (r, s).

Definition get {S} : M S S := fun s => (Ok s, s).

Definition modify {S} (f : S -> S) : M S unit := fun s => (Ok tt, f s).

(** Run a computation on a component of the state. *)
Definition zoom {S T A} (proj : T -> S) (upd : S -> T -> T) (m : M S A) : M T A :=
  fun t => let (r, s') := m (proj t) in (r, upd s' t).

(** [for x in xs: body(x)] *)
Fixpoint for_each {S A} (body : A -> M S unit) (xs : list A) : M S unit :=
  match xs with
  | [] => ret tt
  | x :: xs' => bind (body x) (fun _ => for_each body xs')
  end.

(** *** Sequences *)

(** [xs[i]] for a constant [i >= 0]. *)
Definition getitem {A} (xs : list A) (i : nat) : result A :=
  match nth_error xs i with
  | Some x => Ok x
  | None => Raise IndexError
  end.

(** [s[0]] *)
Definition str_head (s : string) : result ascii :=
  match s with
  | EmptyString => Raise IndexError
  | String c _ => Ok c
  end.

(** [s.split(sep)] for a separator of one character. *)
Fixpoint split (sep : ascii) (s : string) : list string :=
  match s with
  | EmptyString => [EmptyString]
  | String c s' =>
      if Ascii.eqb c sep then EmptyString :: split sep s'
      else match split sep s' with
           | [] => [String c EmptyString]
           | f :: fs => String c f :: fs
           end
  end.

(** [sep.join(xs)] *)
Fixpoint join (sep : string) (xs : list string) : string :=
  match xs with
  | [] => EmptyString
  | [x] => x
  | x :: xs' => x +:+ sep +:+ join sep xs'
  end.

Definition tab : ascii := ascii_of_nat 9.
Definition newline : string := String (ascii_of_nat 10) EmptyString.

(** *** [int(s)] for a [str] in base 10: surrounding white space, an
    optional sign, digits with single underscores between them. *)

Definition is_space (c : ascii) : bool :=
  let n := nat_of_ascii c in
  ((9 <=? n)%nat && (n <=? 13)%nat) || ((28 <=? n)%nat && (n <=? 32)%nat)
  || (n =? 133)%nat || (n =? 160)%nat.

Fixpoint lstrip (s : string) : string :=
  match s with
  | EmptyString => EmptyString
  | String c s' => if is_space c then lstrip s' else s
  end.

Fixpoint rstrip (s : string) : string :=
  match s with
  | EmptyString => EmptyString
  | String c s' =>
      match rstrip s' with
      | EmptyString => if is_space c then EmptyString else String c EmptyString
      | r => String c r
      end
  end.

Definition digit (c : ascii) : option Z :=
  let n := nat_of_ascii c in
  if ((48 <=? n)%nat && (n <=? 57)%nat) then Some (Z.of_nat n - 48) else None.

Fixpoint digits (acc : Z) (after_digit : bool) (s : string) : option Z :=
  match s with
  | EmptyString => if after_digit then Some acc else None
  | String c s' =>
      match digit c with
      | Some d => digits (10 * acc + d) true s'
      | None =>
          if Ascii.eqb c "_" && after_digit then digits acc false s' else None
      end
  end.

Definition int (s : string) : result Z :=
  let body := rstrip (lstrip s) in
  let parsed :=
    match body with
    | String "-" r => Z.opp <$> digits 0 false r
    | String "+" r => digits 0 false r
    | _ => digits 0 false body
    end in
  match parsed with
  | Some z => Ok z
  | None => Raise ValueError
  end.

(** [str(n)] for an [int]. *)
Definition str_int (z : Z) : string := pretty z.

(** [len(s)] *)
Definition len (s : string) : Z := Z.of_nat (String.length s).

(** *** Numbers.  [a / b] on [int]s, [round(x)] and [round(x, 3)]: the
    quotient is the exact rational and a tie is rounded to even. *)

Definition truediv (a b : Z) : result Q :=
  if (b =? 0)%Z then Raise ZeroDivisionError else Ok (inject_Z a / inject_Z b)%Q.

Definition round (x : Q) : Z :=
  let f := Qfloor x in
  match (x - inject_Z f ?= 1 # 2)%Q with
  | Lt => f
  | Gt => f + 1
  | Eq => if Z.even f then f else f + 1
  end.

Definition round3 (x : Q) : Q := Qmake (round (x * inject_Z 1000)) 1000.

(** [xs.count(0)], [sum(xs)] and [len(xs)] on a list of [int]s. *)
Definition count0 (xs : list Z) : Z :=
  Z.of_nat (List.length (List.filter (fun x => (x =? 0)%Z) xs)).

Definition sum (xs : list Z) : Z := fold_right Z.add 0 xs.

Definition len_list {A} (xs : list A) : Z := Z.of_nat (List.length xs).

End Py.

Import Py.

Declare Scope py_scope.
Delimit Scope py_scope with py.
Notation "x <- m ;; k" := (bind m (fun x => k))
  (at level 100, m at next level, right associativity) : py_scope.
Notation "m ;;; k" := (bind m (fun _ => k))
  (at level 100, right associativity) : py_scope.
Local Open Scope py_scope.

(** ** Paths, command lines and files *)

(** A [pathlib.Path] is the list of its components; [p / name] appends one. *)
Abbreviation Path := (list string).

Definition path_div (p : Path) (name : string) : Path := (p ++ [name])%list.
Notation "p // name" := (path_div p name) (at level 40, left associativity).

Definition str_path (p : Path) : string := join "/" p.

(** An element of a command list: a [str], a [Path] or a tuple of such. *)
Inductive arg : Type :=
| AStr (s : string)
| APath (p : Path)
| ATuple (xs : list arg).

Definition is_path (a : arg) : bool :=
  match a with
  | APath _ => true
  | _ => false
  end.

(** The files of the working directory that the steps and the [pathoscope]
    functions read and write, each as the list of the chunks written. *)
Abbreviation Files := (gmap (list string) (list string)).

(** *** [shlex.quote] *)

Definition dquote : ascii := ascii_of_nat 34.

Definition shlex_safe (c : ascii) : bool :=
  let n := nat_of_ascii c in
  ((48 <=? n)%nat && (n <=? 57)%nat) || ((65 <=? n)%nat && (n <=? 90)%nat)
  || ((97 <=? n)%nat && (n <=? 122)%nat)
  || existsb (Ascii.eqb c) (list_ascii_of_string "_@%+=:,./-").

Fixpoint all_safe (s : string) : bool :=
  match s with
  | EmptyString => true
  | String c s' => shlex_safe c && all_safe s'
  end.

(** [s.replace] of every single quote by the five characters that close the
    quoted text, give a quoted single quote and open quoted text again. *)
Fixpoint escape_quotes (s : string) : string :=
  match s with
  | EmptyString => EmptyString
  | String c s' =>
      if Ascii.eqb c "'"
      then String "'" (String dquote (String "'" (String dquote (String "'" (escape_quotes s')))))
      else String c (escape_quotes s')
  end.

Definition shlex_quote (s : string) : string :=
  match s with
  | EmptyString => "''"
  | _ => if all_safe s then s else "'" +:+ escape_quotes s +:+ "'"
  end.

(** Whether a text has a comma. *)
Fixpoint has_comma (s : string) : bool :=
  match s with
  | EmptyString => false
  | String c s' => Ascii.eqb c "," || has_comma s'
  end.

(** ** The objects shared by the steps *)

(** The value of [intermediate.coverage]: what [run_in_executor] returns
    is an awaitable; only an awaited result is the coverage table. *)
Inductive awaitable (A : Type) : Type :=
| Pending (call : Files -> result (A * Files)).
Arguments Pending {A} call.

Inductive coverage_obj : Type :=
| CovAwaitable (a : awaitable (gmap string (list Z)))
| CovDict (d : gmap string (list Z)).

(** [obj[key]]: an awaitable is not subscriptable. *)
Definition subscript (obj : coverage_obj) (key : string) : result (list Z) :=
  match obj with
  | CovAwaitable _ => Raise TypeError
  | CovDict d =>
      match d !! key with
      | Some v => Ok v
      | None => Raise KeyError
      end
  end.

Record Reads : Type := { left : Path; right : Path }.

Record Subtraction : Type := { subtraction_path : Path }.

(** ** Collaborators

    [score] is the type of the alignment scores ([float] in the source),
    [pdata] the type of the tables that [run_patho] returns and
    [write_report] consumes, [stat] the type of the values of a report
    entry and [version] the type of the values of [index.manifest]. *)

Section Workflow.

Context {score pdata stat version : Type}.

(** [line.decode()] on the [bytes] of one line of output. *)
Variable decode : string -> result string.

(** [a < b] on scores, and [str(a)]. *)
Variable score_lt : score -> score -> bool.
Variable str_score : score -> string.

(** What a spawned command prints on its standard output, line by line. *)
Variable spawn : list arg -> list string.

(** The text that formatting a [set] inside an f-string gives. *)
Variable format_set : gset string -> string.

(** The values of a report entry, as [reassignment] leaves them. *)
Inductive hvalue : Type :=
| HStat (x : stat)
| HStr (s : string)
| HOtu (id : string) (v : version)
| HFloat (q : Q)
| HInt (z : Z).

(** A [Hit] is a [dict]; the report is a [dict] of them, kept in the
    order of [report.items()]. *)
Abbreviation Hit := (gmap string hvalue).
Abbreviation Report := (list (string * gmap string hvalue)).

(** The tuple that [run_patho] returns. *)
Record PathoOutput : Type := {
  best_hit_initial_reads : pdata;
  best_hit_initial : pdata;
  level_1_initial : pdata;
  level_2_initial : pdata;
  best_hit_final_reads : pdata;
  best_hit_final : pdata;
  level_1_final : pdata;
  level_2_final : pdata;
  init_pi : pdata;
  pi : pdata;
  refs : pdata;
  reads : list string
}.

(** The [pathoscope] fixture. *)
Record Pathoscope : Type := {
  find_sam_align_score : list string -> result score;
  subtract : Path -> Path -> gmap string score -> Files -> result (Z * Files);
  replace_after_subtraction : Path -> Path -> Files -> result (unit * Files);
  run_patho : Path -> Path -> Files -> result (PathoOutput * Files);
  write_report :
    Path -> pdata -> pdata -> Z -> pdata -> pdata -> pdata -> pdata -> pdata ->
    pdata -> pdata -> pdata -> pdata -> Files -> result (Report * Files);
  calculate_coverage :
    Path -> option (gmap string Z) -> Files ->
    result (gmap string (list Z) * Files)
}.

(** The [index] fixture. *)
Record Index : Type := {
  index_path : Path;
  manifest : gmap string version;
  get_otu_id_by_sequence_id : string -> result string;
  write_isolate_fasta_to :
    list string -> arg -> Z -> Files -> result (gmap string Z * Files)
}.

(** [intermediate]: a [SimpleNamespace].  [to_otus] and [lengths] exist
    from the start ([lengths] as [None]); the other attributes exist once
    a step has set them. *)
Record Intermediate : Type := {
  to_otus : gset string;
  lengths : option (gmap string Z);
  isolate_fasta_path : option arg;
  isolate_vta_path : option Path;
  isolate_mapped_fastq_path : option Path;
  isolate_bt2_path : option Path;
  to_subtraction : option (gmap string score);
  coverage : option coverage_obj
}.

(** The fixture [intermediate()]. *)
Definition intermediate0 : Intermediate :=
  {| to_otus := ∅; lengths := None; isolate_fasta_path := None;
     isolate_vta_path := None; isolate_mapped_fastq_path := None;
     isolate_bt2_path := None; to_subtraction := None; coverage := None |}.

Definition set_to_otus (x : gset string) (i : Intermediate) : Intermediate :=
  {| to_otus := x; lengths := lengths i;
     isolate_fasta_path := isolate_fasta_path i;
     isolate_vta_path := isolate_vta_path i;
     isolate_mapped_fastq_path := isolate_mapped_fastq_path i;
     isolate_bt2_path := isolate_bt2_path i;
     to_subtraction := to_subtraction i; coverage := coverage i |}.

Definition set_lengths (x : option (gmap string Z)) (i : Intermediate) : Intermediate :=
  {| to_otus := to_otus i; lengths := x;
     isolate_fasta_path := isolate_fasta_path i;
     isolate_vta_path := isolate_vta_path i;
     isolate_mapped_fastq_path := isolate_mapped_fastq_path i;
     isolate_bt2_path := isolate_bt2_path i;
     to_subtraction := to_subtraction i; coverage := coverage i |}.

Definition set_isolate_fasta_path (x : arg) (i : Intermediate) : Intermediate :=
  {| to_otus := to_otus i; lengths := lengths i;
     isolate_fasta_path := Some x;
     isolate_vta_path := isolate_vta_path i;
     isolate_mapped_fastq_path := isolate_mapped_fastq_path i;
     isolate_bt2_path := isolate_bt2_path i;
     to_subtraction := to_subtraction i; coverage := coverage i |}.

Definition set_isolate_vta_path (x : Path) (i : Intermediate) : Intermediate :=
  {| to_otus := to_otus i; lengths := lengths i;
     isolate_fasta_path := isolate_fasta_path i;
     isolate_vta_path := Some x;
     isolate_mapped_fastq_path := isolate_mapped_fastq_path i;
     isolate_bt2_path := isolate_bt2_path i;
     to_subtraction := to_subtraction i; coverage := coverage i |}.

Definition set_isolate_mapped_fastq_path (x : Path) (i : Intermediate) : Intermediate :=
  {| to_otus := to_otus i; lengths := lengths i;
     isolate_fasta_path := isolate_fasta_path i;
     isolate_vta_path := isolate_vta_path i;
     isolate_mapped_fastq_path := Some x;
     isolate_bt2_path := isolate_bt2_path i;
     to_subtraction := to_subtraction i; coverage := coverage i |}.

Definition set_isolate_bt2_path (x : Path) (i : Intermediate) : Intermediate :=
  {| to_otus := to_otus i; lengths := lengths i;
     isolate_fasta_path := isolate_fasta_path i;
     isolate_vta_path := isolate_vta_path i;
     isolate_mapped_fastq_path := isolate_mapped_fastq_path i;
     isolate_bt2_path := Some x;
     to_subtraction := to_subtraction i; coverage := coverage i |}.

Definition set_to_subtraction (x : gmap string score) (i : Intermediate) : Intermediate :=
  {| to_otus := to_otus i; lengths := lengths i;
     isolate_fasta_path := isolate_fasta_path i;
     isolate_vta_path := isolate_vta_path i;
     isolate_mapped_fastq_path := isolate_mapped_fastq_path i;
     isolate_bt2_path := isolate_bt2_path i;
     to_subtraction := Some x; coverage := coverage i |}.

Definition set_coverage (x : coverage_obj) (i : Intermediate) : Intermediate :=
  {| to_otus := to_otus i; lengths := lengths i;
     isolate_fasta_path := isolate_fasta_path i;
     isolate_vta_path := isolate_vta_path i;
     isolate_mapped_fastq_path := isolate_mapped_fastq_path i;
     isolate_bt2_path := isolate_bt2_path i;
     to_subtraction := to_subtraction i; coverage := Some x |}.

(** The values stored in [results]. *)
Inductive rvalue : Type :=
| RInt (z : Z)
| RBool (b : bool)
| RHits (hits : list (gmap string hvalue)).

(** Everything a step can read or change. *)
Record World : Type := {
  intermediate : Intermediate;
  files : Files;
  spawned : list (list arg);
  results : gmap string rvalue
}.

Definition with_intermediate (f : Intermediate -> Intermediate) (w : World) : World :=
  {| intermediate := f (intermediate w); files := files w;
     spawned := spawned w; results := results w |}.

Definition with_files (f : Files -> Files) (w : World) : World :=
  {| intermediate := intermediate w; files := f (files w);
     spawned := spawned w; results := results w |}.

Definition with_spawned (f : list (list arg) -> list (list arg)) (w : World) : World :=
  {| intermediate := intermediate w; files := files w;
     spawned := f (spawned w); results := results w |}.

Definition with_results (f : gmap string rvalue -> gmap string rvalue) (w : World) : World :=
  {| intermediate := intermediate w; files := files w;
     spawned := spawned w; results := f (results w) |}.

(** Reading an attribute that no step has set yet. *)
Definition getattr {A} (field : Intermediate -> option A) : M World A :=
  fun w => match field (intermediate w) with
           | Some x => (Ok x, w)
           | None => (Raise AttributeError, w)
           end.

(** [run_in_executor(func, *args)] gives an awaitable; nothing is
    computed until it is awaited. *)
Definition run_in_executor {A} (call : Files -> result (A * Files)) : awaitable A :=
  Pending call.

(** [await a] *)
Definition await {A} (a : awaitable A) : M World A :=
  fun w => match a with
           | Pending call =>
               match call (files w) with
               | Ok (x, fs) => (Ok x, with_files (fun _ => fs) w)
               | Raise e => (Raise e, w)
               end
           end.

(** A step body runs on the world and on its local variables. *)
Definition on_world {L A} (m : M World A) : M (World * L) A :=
  zoom fst (fun w f => (w, snd f)) m.

Definition on_local {L A} (m : M L A) : M (World * L) A :=
  zoom snd (fun l f => (fst f, l)) m.

Definition with_local {L A} (l0 : L) (m : M (World * L) A) : M World A :=
  fun w => let (r, f) := m (w, l0) in (r, fst f).

(** [await run_subprocess(command, wait=True, stdout_handler=h)]: the
    command is spawned and every line it prints is given to the handler. *)
Definition run_subprocess {L} (command : list arg)
    (stdout_handler : option (string -> M (World * L) unit)) : M (World * L) unit :=
  on_world (modify (with_spawned (fun cs => (cs ++ [command])%list))) ;;;
  match stdout_handler with
  | Some h => for_each h (spawn command)
  | None => ret tt
  end.

(** [d[key]] on a [dict]. *)
Definition dict_getitem {V} (d : gmap string V) (key : string) : result V :=
  match d !! key with
  | Some v => Ok v
  | None => Raise KeyError
  end.

(** [[f(x) for x in xs]] *)
Fixpoint comprehension {A B} (f : A -> result B) (xs : list A) : result (list B) :=
  match xs with
  | [] => Ok []
  | x :: xs' =>
      match f x with
      | Ok y =>
          match comprehension f xs' with
          | Ok ys => Ok (y :: ys)
          | Raise e => Raise e
          end
      | Raise e => Raise e
      end
  end.

(** ** Step 1: [map_default_isolates] *)

Definition map_default_isolates_stdout_handler (pathoscope : Pathoscope)
    (p_score_cutoff : score) (line : string) : M (gset string) unit :=
  line <- lift (decode line) ;;
  c <- lift (str_head line) ;;
  if Ascii.eqb c "#" || Ascii.eqb c "@" then ret tt else
  let fields := split tab line in
  (* Bitwise FLAG - 0x4: segment unmapped *)
  f1 <- lift (getitem fields 1) ;;
  flag <- lift (int f1) ;;
  if (Z.land flag 4 =? 4)%Z then ret tt else
  ref_id <- lift (getitem fields 2) ;;
  if String.eqb ref_id "*" then ret tt else
  (* Skip if the p_score does not meet the minimum cutoff. *)
  p_score <- lift (find_sam_align_score pathoscope fields) ;;
  if score_lt p_score p_score_cutoff then ret tt else
  modify (fun to_otus => to_otus ∪ {[ref_id]}).

Definition map_default_isolates_command (reads : Reads) (index : Index) (proc : Z)
    : list arg :=
  [ AStr "bowtie2";
    AStr "-p"; AStr (str_int proc);
    AStr ("--no-unal" +:+ "--local");
    AStr "--score-min"; AStr "L,20,1.0";
    AStr "-N"; AStr "0";
    AStr "-L"; AStr "15";
    AStr "-x"; APath (index_path index);
    AStr "-U"; AStr (str_path (left reads) +:+ "," +:+ str_path (right reads)) ].

Definition map_default_isolates (pathoscope : Pathoscope) (reads : Reads)
    (index : Index) (proc : Z) (p_score_cutoff : score) : M World string :=
  with_local tt (
    run_subprocess (map_default_isolates_command reads index proc)
      (Some (fun line =>
         on_world (zoom (fun w => to_otus (intermediate w))
                        (fun s => with_intermediate (set_to_otus s))
                        (map_default_isolates_stdout_handler pathoscope p_score_cutoff line)))) ;;;
    f <- get ;;
    ret ("Mapped reats to OTUs " +:+ format_set (to_otus (intermediate (fst f))))).

(** ** Step 2: [write_isolate_fasta] *)

Definition write_isolate_fasta (index : Index) (proc : Z) (isolate_path : Path)
    : M World string :=
  (* the trailing comma of the source makes a tuple of one element *)
  let fasta_path := ATuple [APath (isolate_path // "isolate_index.fa")] in
  w <- get ;;
  otu_ids <- lift (comprehension (get_otu_id_by_sequence_id index)
                     (elements (to_otus (intermediate w)))) ;;
  table <- await (Pending (write_isolate_fasta_to index otu_ids fasta_path proc)) ;;
  modify (with_intermediate (set_lengths (Some table))) ;;;
  modify (with_intermediate (set_isolate_fasta_path fasta_path)) ;;;
  ret "Produced isolate fasta file.".

(** ** Step 3: [build_isolate_index] *)

Definition build_isolate_index_command (fasta_path : arg) (isolate_path : Path)
    (proc : Z) : list arg :=
  [ AStr "bowtie2-build";
    AStr "--threads"; AStr (str_int proc);
    fasta_path;
    APath (isolate_path // "isolates") ].

Definition build_isolate_index (isolate_path : Path) (proc : Z) : M World string :=
  with_local tt (
    fasta_path <- on_world (getattr isolate_fasta_path) ;;
    run_subprocess (build_isolate_index_command fasta_path isolate_path proc) None ;;;
    ret "Built isolate index.").

(** ** Step 4: [map_isolates] *)

(** The handler writes to the open file [f]; its state is what the file
    holds. *)
Definition map_isolates_stdout_handler (pathoscope : Pathoscope)
    (p_score_cutoff : score) (line : string) : M (list string) unit :=
  line <- lift (decode line) ;;
  c <- lift (str_head line) ;;
  if Ascii.eqb c "@" || String.eqb line "#" then ret tt else
  let fields := split tab line in
  (* Bitwise FLAG - 0x4 : segment unmapped *)
  f1 <- lift (getitem fields 1) ;;
  flag <- lift (int f1) ;;
  if (Z.land flag 4 =? 4)%Z then ret tt else
  ref_id <- lift (getitem fields 2) ;;
  if String.eqb ref_id "*" then ret tt else
  p_score <- lift (find_sam_align_score pathoscope fields) ;;
  (* Skip if the p_score does not meet the minimum cutoff. *)
  if score_lt p_score p_score_cutoff then ret tt else
  read_id <- lift (getitem fields 0) ;;
  pos <- lift (getitem fields 3) ;;
  f9 <- lift (getitem fields 9) ;;
  modify (fun f =>
    (f ++ [join "," [read_id; ref_id; pos; str_int (len f9); str_score p_score]
           +:+ newline])%list).

Definition map_isolates_command (reads : Reads) (mapped_fastq_path reference_path : Path)
    (proc : Z) : list arg :=
  [ AStr "bowtie2";
    AStr "-p"; AStr (str_int proc);
    AStr "--no-unal";
    AStr "--local";
    AStr "--score-min"; AStr "L,20,1.0";
    AStr "-N"; AStr "0";
    AStr "-L"; AStr "15";
    AStr "-k"; AStr "100";
    AStr "--al"; APath mapped_fastq_path;
    AStr "-x"; APath reference_path;
    AStr "-U"; AStr (str_path (left reads) +:+ "," +:+ str_path (right reads)) ].

(** What the file at [path] holds (nothing when it does not exist). *)
Definition file_at (path : Path) (w : World) : list string :=
  default [] (files w !! path).

Definition map_isolates (pathoscope : Pathoscope) (reads : Reads)
    (isolate_path : Path) (proc : Z) (p_score_cutoff : score) : M World string :=
  let vta_path := isolate_path // "to_isolates.vta" in
  let mapped_fastq_path := isolate_path // "mapped.fastq" in
  let reference_path := isolate_path // "isolates" in
  with_local tt (
    (* opening the file for writing creates it empty *)
    on_world (modify (with_files (<[vta_path := []]>))) ;;;
    run_subprocess (map_isolates_command reads mapped_fastq_path reference_path proc)
      (Some (fun line =>
         on_world (zoom (file_at vta_path)
                        (fun c => with_files (<[vta_path := c]>))
                        (map_isolates_stdout_handler pathoscope p_score_cutoff line)))) ;;;
    on_world (modify (with_intermediate (set_isolate_vta_path vta_path))) ;;;
    on_world (modify (with_intermediate (set_isolate_mapped_fastq_path mapped_fastq_path))) ;;;
    on_world (modify (with_intermediate (set_isolate_bt2_path reference_path))) ;;;
    ret "Mapped sample reads to isolate index.").

(** ** Step 5: [map_subtractions] *)

(** The handler fills the local [dict] [to_subtraction]. *)
Definition map_subtractions_stdout_handler (pathoscope : Pathoscope)
    (line : string) : M (gmap string score) unit :=
  line <- lift (decode line) ;;
  c <- lift (str_head line) ;;
  if Ascii.eqb c "@" || String.eqb line "#" then ret tt else
  let fields := split tab line in
  (* Bitwise FLAG - 0x4 : segment unmapped *)
  f1 <- lift (getitem fields 1) ;;
  flag <- lift (int f1) ;;
  if (Z.land flag 4 =? 4)%Z then ret tt else
  (* No ref_id assigned. *)
  f2 <- lift (getitem fields 2) ;;
  if String.eqb f2 "*" then ret tt else
  p_score <- lift (find_sam_align_score pathoscope fields) ;;
  read_id <- lift (getitem fields 0) ;;
  modify (fun to_subtraction => <[read_id := p_score]> to_subtraction).

Definition map_subtractions_command (subtraction : Subtraction)
    (mapped_fastq_path : Path) (proc : Z) : list arg :=
  [ AStr "bowtie2";
    AStr "--local";
    AStr "-N"; AStr "0";
    AStr "-p"; AStr (str_int proc);
    AStr "-x"; AStr (shlex_quote (str_path (subtraction_path subtraction)));
    AStr "-U"; APath mapped_fastq_path ].

Definition map_subtractions (pathoscope : Pathoscope) (subtraction : Subtraction)
    (proc : Z) : M World string :=
  with_local (∅ : gmap string score) (
    mapped_fastq_path <- on_world (getattr isolate_mapped_fastq_path) ;;
    run_subprocess (map_subtractions_command subtraction mapped_fastq_path proc)
      (Some (fun line => on_local (map_subtractions_stdout_handler pathoscope line))) ;;;
    f <- get ;;
    on_world (modify (with_intermediate (set_to_subtraction (snd f)))) ;;;
    ret "Mapped reads to the subtraction host.").

(** ** Step 6: [subtract_mapping] *)

Definition subtract_mapping (pathoscope : Pathoscope) (isolate_path : Path)
    : M World string :=
  let output_path := isolate_path // "subtracted.vta" in
  vta_path <- getattr isolate_vta_path ;;
  table <- getattr to_subtraction ;;
  subtracted_count <- await (Pending (subtract pathoscope vta_path output_path table)) ;;
  vta_path <- getattr isolate_vta_path ;;
  await (run_in_executor (replace_after_subtraction pathoscope output_path vta_path)) ;;;
  modify (with_results (<["subtracted_count" := RInt subtracted_count]>)) ;;;
  ret "Performed subtraction on subtraction mapped reads.".

(** ** Step 7: [reassignment] *)

(** [round(1 - hit_coverage.count(0) / len(hit_coverage), 3)] *)
Definition hit_coverage_value (hit_coverage : list Z) : result Q :=
  match truediv (count0 hit_coverage) (len_list hit_coverage) with
  | Ok r => Ok (round3 (1 - r))
  | Raise e => Raise e
  end.

(** [round(sum(hit_coverage) / len(hit_coverage))] *)
Definition hit_depth_value (hit_coverage : list Z) : result Z :=
  match truediv (sum hit_coverage) (len_list hit_coverage) with
  | Ok r => Ok (round r)
  | Raise e => Raise e
  end.

(** The body of the loop over [report.items()]. *)
Definition reassignment_hit (index : Index) (sequence_id : string)
    (hit : Hit) : M World Hit :=
  otu_id <- lift (get_otu_id_by_sequence_id index sequence_id) ;;
  let hit := <["id" := HStr sequence_id]> hit in
  (* Attach "otu" (id, version) to the hit. *)
  v <- lift (dict_getitem (manifest index) otu_id) ;;
  let hit := <["otu" := HOtu otu_id v]> hit in
  (* Get the coverage for the sequence. *)
  cov <- getattr coverage ;;
  hit_coverage <- lift (subscript cov sequence_id) ;;
  (* Calculate coverage and attach to hit. *)
  c <- lift (hit_coverage_value hit_coverage) ;;
  let hit := <["coverage" := HFloat c]> hit in
  (* Calculate depth and attach to hit. *)
  d <- lift (hit_depth_value hit_coverage) ;;
  let hit := <["depth" := HInt d]> hit in
  ret hit.

(** The loop: [hits] grows by one entry per item of the report. *)
Fixpoint reassignment_hits (index : Index) (report : Report)
    (hits : list Hit) : M World (list Hit) :=
  match report with
  | [] => ret hits
  | (sequence_id, hit) :: report' =>
      h <- reassignment_hit index sequence_id hit ;;
      reassignment_hits index report' (hits ++ [h])%list
  end.

(** What [reassignment] does once [run_patho] has returned [out]. *)
Definition reassignment_report (pathoscope : Pathoscope) (isolate_path : Path)
    (index : Index) (out : PathoOutput) : M World unit :=
  let reassigned_path := isolate_path // "reassigned.vta" in
  let read_count := len_list (reads out) in
  let report_path := isolate_path // "report.tsv" in
  report <- await (run_in_executor
    (write_report pathoscope report_path
       (pi out) (refs out) read_count (init_pi out)
       (best_hit_initial out) (best_hit_initial_reads out)
       (best_hit_final out) (best_hit_final_reads out)
       (level_1_initial out) (level_2_initial out)
       (level_1_final out) (level_2_final out))) ;;
  (* no [await] here: the attribute holds the awaitable itself *)
  w <- get ;;
  modify (with_intermediate (set_coverage (CovAwaitable
    (run_in_executor
       (calculate_coverage pathoscope reassigned_path (lengths (intermediate w))))))) ;;;
  hits <- reassignment_hits index report [] ;;
  modify (with_results (fun r =>
    <["results" := RHits hits]>
      (<["read_count" := RInt read_count]> (<["ready" := RBool true]> r)))).

Definition reassignment (pathoscope : Pathoscope) (isolate_path : Path)
    (index : Index) : M World unit :=
  let reassigned_path := isolate_path // "reassigned.vta" in
  vta_path <- getattr isolate_vta_path ;;
  out <- await (run_in_executor (run_patho pathoscope vta_path reassigned_path)) ;;
  reassignment_report pathoscope isolate_path index out.

(** A world in which [intermediate.coverage] holds the table [cov]. *)
Definition with_coverage_table (cov : gmap string (list Z)) (w : World) : World :=
  with_intermediate (set_coverage (CovDict cov)) w.

(** ** The statements of the specification *)

Inductive stage : Type := FirstPass | TargetedPass | HostSubtraction.

(** A line is accepted by a stage when its handler, started on nothing,
    leaves something. *)
Definition accepts (st : stage) (pathoscope : Pathoscope) (cutoff : score)
    (raw : string) : Prop :=
  match st with
  | FirstPass =>
      snd (map_default_isolates_stdout_handler pathoscope cutoff raw ∅) ≠ ∅
  | TargetedPass =>
      snd (map_isolates_stdout_handler pathoscope cutoff raw []) ≠ []
  | HostSubtraction =>
      snd (map_subtractions_stdout_handler pathoscope raw ∅) ≠ ∅
  end.

(** What a handler reads from a line: its text, flag, reference and score. *)
Definition parses (pathoscope : Pathoscope) (raw line : string) (flag : Z)
    (ref_id : string) (s : score) : Prop :=
  decode raw = Ok line
  ∧ (exists f1, getitem (split tab line) 1 = Ok f1 ∧ int f1 = Ok flag)
  ∧ getitem (split tab line) 2 = Ok ref_id
  ∧ find_sam_align_score pathoscope (split tab line) = Ok s.

(** The record that the targeted pass writes for a line. *)
Definition vta_record (line ref_id : string) (s : score) : string :=
  match split tab line with
  | read_id :: _ :: _ :: pos :: _ :: _ :: _ :: _ :: _ :: f9 :: _ =>
      join "," [read_id; ref_id; pos; str_int (len f9); str_score s] +:+ newline
  | _ => EmptyString
  end.

(** A header line starts with [@] or [#]. *)
Definition starts_with_header (line : string) : Prop :=
  match line with
  | String c _ => c = "#"%char ∨ c = "@"%char
  | EmptyString => False
  end.

(** "No accepted record has a score below the cutoff." *)
Definition never_below_cutoff (st : stage) (pathoscope : Pathoscope)
    (cutoff : score) : Prop :=
  forall raw line s,
    accepts st pathoscope cutoff raw ->
    decode raw = Ok line ->
    find_sam_align_score pathoscope (split tab line) = Ok s ->
    score_lt s cutoff = false.

(** A line without a flag field, or with one that is not an integer. *)
Definition bad_flag (line : string) : Prop :=
  match split tab line with
  | _ :: f1 :: _ => int f1 = Raise ValueError
  | _ => True
  end.

(** "A malformed line is skipped: no error, the state is unchanged." *)
Definition skips_malformed {S} (handler : string -> M S unit) : Prop :=
  forall raw line st,
    decode raw = Ok line -> ¬ starts_with_header line -> bad_flag line ->
    handler raw st = (Ok tt, st).

(** The entry that one line adds to the host score table, if any. *)
Definition host_record (pathoscope : Pathoscope) (raw : string)
    : option (string * score) :=
  match map_to_list (snd (map_subtractions_stdout_handler pathoscope raw ∅)) with
  | [kv] => Some kv
  | _ => None
  end.

Fixpoint host_records (pathoscope : Pathoscope) (lines : list string)
    : list (string * score) :=
  match lines with
  | [] => []
  | raw :: lines' =>
      match host_record pathoscope raw with
      | Some kv => kv :: host_records pathoscope lines'
      | None => host_records pathoscope lines'
      end
  end.

(** The score of the last record of read [read_id]. *)
Definition last_score (read_id : string) (records : list (string * score))
    : option score :=
  snd <$> last (List.filter (fun kv => String.eqb (fst kv) read_id) records).

(** "The table keeps the maximum score of each read": no record of a read
    has a score above the one the table holds for it. *)
Definition keeps_maximum (pathoscope : Pathoscope) (lines : list string) : Prop :=
  forall table read_id s kept,
    for_each (map_subtractions_stdout_handler pathoscope) lines ∅ = (Ok tt, table) ->
    (read_id, s) ∈ host_records pathoscope lines ->
    table !! read_id = Some kept ->
    score_lt kept s = false.

(** "The coverage is one minus the share of positions of depth zero." *)
Definition exact_coverage (hit_coverage : list Z) : Prop :=
  exists c, hit_coverage_value hit_coverage = Ok c
            ∧ (c == 1 - inject_Z (count0 hit_coverage) / inject_Z (len_list hit_coverage))%Q.

(** "A reference of length zero gets coverage 0 and depth 0." *)
Definition reports_zero (index : Index) (sequence_id : string)
    (hit : gmap string hvalue) (w : World) : Prop :=
  exists h c, fst (reassignment_hit index sequence_id hit w) = Ok h
            ∧ h !! "coverage" = Some (HFloat c) ∧ (c == 0)%Q
            ∧ h !! "depth" = Some (HInt 0).

(** The contract of [replace_after_subtraction(src, dst)]: afterwards the
    file [dst] holds what [src] held. *)
Definition replaces (pathoscope : Pathoscope) : Prop :=
  forall src dst fs fs',
    replace_after_subtraction pathoscope src dst fs = Ok (tt, fs') ->
    fs' !! dst = fs !! src.

(** ** What the loops over the lines leave *)

(** The reference that one line adds to the candidate set, if any. *)
Definition first_ref (pathoscope : Pathoscope) (cutoff : score) (raw : string)
    : option string :=
  match elements (snd (map_default_isolates_stdout_handler pathoscope cutoff raw ∅)) with
  | [r] => Some r
  | _ => None
  end.

Fixpoint first_refs (pathoscope : Pathoscope) (cutoff : score) (lines : list string)
    : list string :=
  match lines with
  | [] => []
  | raw :: lines' =>
      match first_ref pathoscope cutoff raw with
      | Some r => r :: first_refs pathoscope cutoff lines'
      | None => first_refs pathoscope cutoff lines'
      end
  end.

(** The record that one line adds to the alignment file, if any. *)
Definition targeted_record (pathoscope : Pathoscope) (cutoff : score) (raw : string)
    : option string :=
  match snd (map_isolates_stdout_handler pathoscope cutoff raw []) with
  | [c] => Some c
  | _ => None
  end.

Fixpoint targeted_records (pathoscope : Pathoscope) (cutoff : score)
    (lines : list string) : list string :=
  match lines with
  | [] => []
  | raw :: lines' =>
      match targeted_record pathoscope cutoff raw with
      | Some c => c :: targeted_records pathoscope cutoff lines'
      | None => targeted_records pathoscope cutoff lines'
      end
  end.

(** The handler returns on the line: it does not raise. *)
Definition returns_on {S} (handler : string -> M S unit) (s0 : S) (raw : string)
    : Prop :=
  fst (handler raw s0) = Ok tt.

End Workflow.

(** ** A concrete run: collaborators, fixtures and lines of output

    The instance below fixes every collaborator so that the steps can be
    evaluated.  Scores are rationals; the extractor adds the read length to
    the integer of the [AS:i:] tag of the line. *)

Module Sample.

(** One line of tabular output from its fields. *)
Definition tsv (fields : list string) : string :=
  join (String tab EmptyString) fields.

Definition decode (line : string) : result string := Ok line.

Definition score_lt (a b : Q) : bool :=
  match (a ?= b)%Q with
  | Lt => true
  | _ => false
  end.

(** Text of a score with an integer value. *)
Definition str_score (a : Q) : string := str_int (Qfloor a) +:+ ".0".

Definition starts_with (p s : string) : bool := String.prefix p s.

Fixpoint find_tag (fields : list string) : option string :=
  match fields with
  | [] => None
  | f :: fs =>
      if starts_with "AS:i:" f then Some (String.substring 5 (String.length f - 5) f)
      else find_tag fs
  end.

Definition find_sam_align_score (fields : list string) : result Q :=
  match getitem fields 9 with
  | Raise e => Raise e
  | Ok read =>
      match find_tag fields with
      | None => Raise ValueError
      | Some t =>
          match int t with
          | Ok a => Ok (inject_Z (a + len read))
          | Raise e => Raise e
          end
      end
  end.

(** The fixture [p_score_cutoff()]: 0.01. *)
Definition p_score_cutoff : Q := 1 # 100.

Definition is_str (a : option arg) (s : string) : bool :=
  match a with
  | Some (AStr t) => String.eqb t s
  | _ => false
  end.

Definition format_set (s : gset string) : string := join ", " (elements s).

(** A record of the alignment file survives when the host table has no
    entry for its read. *)
Definition record_read (chunk : string) : string :=
  match split "," chunk with
  | r :: _ => r
  | [] => EmptyString
  end.

Definition survives (table : gmap string Q) (chunk : string) : bool :=
  match table !! record_read chunk with
  | Some _ => false
  | None => true
  end.

Definition subtract (src dst : list string) (table : gmap string Q)
    (fs : gmap (list string) (list string))
    : result (Z * gmap (list string) (list string)) :=
  match fs !! src with
  | None => Raise (ExternalError "FileNotFoundError")
  | Some c =>
      let kept := List.filter (survives table) c in
      Ok (Z.of_nat (List.length c - List.length kept), <[dst := kept]> fs)
  end.

Definition replace_after_subtraction (src dst : list string)
    (fs : gmap (list string) (list string))
    : result (unit * gmap (list string) (list string)) :=
  match fs !! src with
  | None => Raise (ExternalError "FileNotFoundError")
  | Some c => Ok (tt, <[dst := c]> (delete src fs))
  end.

Definition patho_output (read_ids : list string) : @PathoOutput unit :=
  {| best_hit_initial_reads := tt; best_hit_initial := tt;
     level_1_initial := tt; level_2_initial := tt;
     best_hit_final_reads := tt; best_hit_final := tt;
     level_1_final := tt; level_2_final := tt;
     init_pi := tt; pi := tt; refs := tt; reads := read_ids |}.

Definition run_patho (src dst : list string)
    (fs : gmap (list string) (list string))
    : result (@PathoOutput unit * gmap (list string) (list string)) :=
  match fs !! src with
  | None => Raise (ExternalError "FileNotFoundError")
  | Some c => Ok (patho_output (record_read <$> c), <[dst := c]> fs)
  end.

(** A report with one entry, for the reference [ref1]. *)
Definition write_report (path : list string)
    (pi refs : unit) (read_count : Z)
    (init_pi bhi bhir bhf bhfr l1i l2i l1f l2f : unit)
    (fs : gmap (list string) (list string))
    : result (list (string * gmap string (@hvalue Z Z))
              * gmap (list string) (list string)) :=
  Ok ([("ref1", {[ "reads" := HStat read_count ]})], <[path := ["ref1"]]> fs).

Definition calculate_coverage (path : list string) (lengths : option (gmap string Z))
    (fs : gmap (list string) (list string))
    : result (gmap string (list Z) * gmap (list string) (list string)) :=
  Ok ({[ "ref1" := [0; 1; 1] ]}, fs).

Definition pathoscope : @Pathoscope Q unit Z Z :=
  @Build_Pathoscope Q unit Z Z
    find_sam_align_score subtract replace_after_subtraction
    run_patho write_report calculate_coverage.

Definition index : @Index Z :=
  {| index_path := ["work"; "index"; "reference"];
     manifest := {[ "otu1" := 3 ]};
     get_otu_id_by_sequence_id := fun s =>
       if String.eqb s "ref1" then Ok "otu1" else Raise KeyError;
     write_isolate_fasta_to := fun otu_ids path proc fs =>
       Ok ({[ "ref1" := 3 ]}, fs) |}.

Definition reads : Reads :=
  {| left := ["work"; "reads"; "reads_1.fq"];
     right := ["work"; "reads"; "reads_2.fq"] |}.

Definition subtraction : Subtraction :=
  {| subtraction_path := ["work"; "subtractions"; "host"] |}.

Definition isolate_path : list string := ["work"; "isolates"].

Definition world0 : @World Q Z Z :=
  {| intermediate := intermediate0; files := ∅; spawned := []; results := ∅ |}.

(** A mapped alignment of read [r] on [ref1] with tag [AS:i:tag]. *)
Definition alignment (r tag : string) : string :=
  tsv [r; "0"; "ref1"; "7"; "42"; "4M"; "*"; "0"; "0"; "ACGT"; "IIII";
       "AS:i:" +:+ tag].

(** What the aligner prints: a header and two alignments in the first
    and in the targeted pass, two alignments of the same read in the
    host-subtraction pass. *)
Definition spawn (command : list arg) : list string :=
  if is_str (nth_error command 1) "--local"
  then [alignment "r1" "8"; alignment "r1" "2"]
  else if is_str (nth_error command 0) "bowtie2"
  then [tsv ["@HD"; "VN:1.0"]; alignment "r1" "8"; alignment "r2" "5"]
  else [].

(** The world once the first pass has found [ref1]. *)
Definition world_candidates : @World Q Z Z :=
  with_intermediate (set_to_otus {[ "ref1" ]}) world0.

(** The world once the targeted and the host-subtraction pass have run. *)
Definition world_mapped : @World Q Z Z :=
  {| intermediate :=
       set_to_subtraction {[ "r2" := 9%Q ]}
         (set_isolate_mapped_fastq_path (isolate_path // "mapped.fastq")
            (set_isolate_vta_path (isolate_path // "to_isolates.vta")
               (set_lengths (Some {[ "ref1" := 3 ]})
                  (set_to_otus {[ "ref1" ]} intermediate0))));
     files := {[ isolate_path // "to_isolates.vta"
                 := [ "r1,ref1,7,4,12.0" +:+ newline;
                      "r2,ref1,7,4,9.0" +:+ newline ] ]};
     spawned := [];
     results := ∅ |}.

(** A world in which the coverage table is at hand, with an empty array
    for [ref1]. *)
Definition world_empty_array : @World Q Z Z :=
  with_coverage_table {[ "ref1" := [] ]} world_mapped.

(** Output with a line that is no alignment between two alignments. *)
Definition spawn_bad (command : list arg) : list string :=
  [alignment "r1" "8"; "garbage"; alignment "r2" "5"].

(** The world once the first pass has found a sequence that the index
    does not know. *)
Definition world_unknown : @World Q Z Z :=
  with_intermediate (set_to_otus {[ "ref9" ]}) world0.

(** A world in which the coverage table is at hand, with an array for
    [ref1], and one in which the table has no array. *)
Definition world_covered : @World Q Z Z :=
  with_coverage_table {[ "ref1" := [0; 1; 1] ]} world_mapped.

Definition world_no_array : @World Q Z Z :=
  with_coverage_table ∅ world_mapped.

(** A [pathoscope] whose [replace_after_subtraction] fails, and one whose
    [write_report] gives an empty report. *)
Definition pathoscope_stuck : @Pathoscope Q unit Z Z :=
  @Build_Pathoscope Q unit Z Z
    find_sam_align_score subtract
    (fun _ _ _ => Raise (ExternalError "OSError"))
    run_patho write_report calculate_coverage.

Definition pathoscope_silent : @Pathoscope Q unit Z Z :=
  @Build_Pathoscope Q unit Z Z
    find_sam_align_score subtract replace_after_subtraction run_patho
    (fun path _ _ _ _ _ _ _ _ _ _ _ _ fs => Ok ([], <[path := []]> fs))
    calculate_coverage.

End Sample.

(** ** Properties of the handlers *)

Section Properties.

Context {score pdata stat version : Type}.
Variable decode : string -> result string.
Variable score_lt : score -> score -> bool.
Variable str_score : score -> string.
Variable spawn : list arg -> list string.
Variable format_set : gset string -> string.

#[local] Abbreviation Pathoscope := (@Pathoscope score pdata stat version).
#[local] Abbreviation World := (@World score stat version).
#[local] Abbreviation first_handler := (map_default_isolates_stdout_handler decode score_lt).
#[local] Abbreviation targeted_handler := (map_isolates_stdout_handler decode score_lt str_score).
#[local] Abbreviation host_handler := (map_subtractions_stdout_handler decode).
#[local] Abbreviation accepted_by := (accepts decode score_lt str_score).
#[local] Abbreviation reads_as := (parses decode).
#[local] Abbreviation record_of := (vta_record str_score).

Ltac run_handler :=
  unfold map_default_isolates_stdout_handler, map_isolates_stdout_handler,
    map_subtractions_stdout_handler, bind, lift, ret, modify; simpl.

(** The first pass: whatever the set holds, a line either leaves it as it
    is, or it parses, is mapped, names a reference, meets the cutoff, and
    its reference is added. *)
Lemma first_handler_cases (ps : Pathoscope) cutoff raw :
  (exists r, forall st, first_handler ps cutoff raw st = (r, st))
  ∨ exists line flag ref_id s,
      reads_as ps raw line flag ref_id s
      ∧ ¬ starts_with_header line
      ∧ Z.land flag 4 ≠ 4 ∧ ref_id ≠ "*" ∧ score_lt s cutoff = false
      ∧ forall st, first_handler ps cutoff raw st = (Ok tt, st ∪ {[ref_id]}).
Proof.
  run_handler.
  destruct (decode raw) as [line|] eqn:Hd; simpl; [|by eauto].
  destruct (str_head line) as [c|] eqn:Hc; simpl; [|by eauto].
  destruct (Ascii.eqb c "#" || Ascii.eqb c "@") eqn:Hh; simpl; [by eauto|].
  destruct (getitem (split tab line) 1) as [f1|] eqn:Hf1; simpl; [|by eauto].
  destruct (int f1) as [flag|] eqn:Hflag; simpl; [|by eauto].
  destruct (Z.land flag 4 =? 4)%Z eqn:Hbit; simpl; [by eauto|].
  destruct (getitem (split tab line) 2) as [ref_id|] eqn:Href; simpl; [|by eauto].
  destruct (String.eqb ref_id "*") eqn:Hstar; simpl; [by eauto|].
  destruct (find_sam_align_score ps (split tab line)) as [s|] eqn:Hs; simpl; [|by eauto].
  destruct (score_lt s cutoff) eqn:Hlt; simpl; [by eauto|].
  right. exists line, flag, ref_id, s. repeat split; eauto.
  - destruct line as [|c' l]; simpl in *; [discriminate|].
    injection Hc as ->. apply orb_false_iff in Hh as [H1 H2].
    apply Ascii.eqb_neq in H1, H2. tauto.
  - by apply Z.eqb_neq.
  - by apply String.eqb_neq.
Qed.

(** The targeted pass: a line either leaves the file as it is, or it
    parses, is mapped, names a reference, meets the cutoff, and one record
    is appended. *)
Lemma targeted_handler_cases (ps : Pathoscope) cutoff raw :
  (exists r, forall f, targeted_handler ps cutoff raw f = (r, f))
  ∨ exists line flag ref_id s,
      reads_as ps raw line flag ref_id s
      ∧ Z.land flag 4 ≠ 4 ∧ ref_id ≠ "*" ∧ score_lt s cutoff = false
      ∧ forall f, targeted_handler ps cutoff raw f
                  = (Ok tt, (f ++ [record_of line ref_id s])%list).
Proof.
  run_handler. unfold vta_record.
  destruct (decode raw) as [line|] eqn:Hd; simpl; [|by eauto].
  destruct (str_head line) as [c|] eqn:Hc; simpl; [|by eauto].
  destruct (Ascii.eqb c "@" || String.eqb line "#") eqn:Hh; simpl; [by eauto|].
  destruct (getitem (split tab line) 1) as [f1|] eqn:Hf1; simpl; [|by eauto].
  destruct (int f1) as [flag|] eqn:Hflag; simpl; [|by eauto].
  destruct (Z.land flag 4 =? 4)%Z eqn:Hbit; simpl; [by eauto|].
  destruct (getitem (split tab line) 2) as [ref_id|] eqn:Href; simpl; [|by eauto].
  destruct (String.eqb ref_id "*") eqn:Hstar; simpl; [by eauto|].
  destruct (find_sam_align_score ps (split tab line)) as [s|] eqn:Hs; simpl; [|by eauto].
  destruct (score_lt s cutoff) eqn:Hlt; simpl; [by eauto|].
  destruct (getitem (split tab line) 0) as [read_id|] eqn:H0; simpl; [|by eauto].
  destruct (getitem (split tab line) 3) as [pos|] eqn:H3; simpl; [|by eauto].
  destruct (getitem (split tab line) 9) as [f9|] eqn:H9; simpl; [|by eauto].
  right. exists line, flag, ref_id, s.
  split; [by repeat split; eauto|].
  split; [by apply Z.eqb_neq|]. split; [by apply String.eqb_neq|].
  split; [done|]. intros f.
  destruct (split tab line)
    as [|x0 [|x1 [|x2 [|x3 [|x4 [|x5 [|x6 [|x7 [|x8 [|x9 xs]]]]]]]]]];
    try discriminate.
  unfold getitem in H0, H3, H9; simpl in H0, H3, H9.
  by injection H0 as ->; injection H3 as ->; injection H9 as ->.
Qed.

(** The host pass: a line either leaves the table as it is, or it parses,
    is mapped, names a reference, and its score is stored under its read
    id, whatever the table held there. *)
Lemma host_handler_cases (ps : Pathoscope) raw :
  (exists r, forall t, host_handler ps raw t = (r, t))
  ∨ exists line flag ref_id s read_id,
      reads_as ps raw line flag ref_id s
      ∧ Z.land flag 4 ≠ 4 ∧ ref_id ≠ "*"
      ∧ getitem (split tab line) 0 = Ok read_id
      ∧ forall t, host_handler ps raw t = (Ok tt, <[read_id := s]> t).
Proof.
  run_handler.
  destruct (decode raw) as [line|] eqn:Hd; simpl; [|by eauto].
  destruct (str_head line) as [c|] eqn:Hc; simpl; [|by eauto].
  destruct (Ascii.eqb c "@" || String.eqb line "#") eqn:Hh; simpl; [by eauto|].
  destruct (getitem (split tab line) 1) as [f1|] eqn:Hf1; simpl; [|by eauto].
  destruct (int f1) as [flag|] eqn:Hflag; simpl; [|by eauto].
  destruct (Z.land flag 4 =? 4)%Z eqn:Hbit; simpl; [by eauto|].
  destruct (getitem (split tab line) 2) as [ref_id|] eqn:Href; simpl; [|by eauto].
  destruct (String.eqb ref_id "*") eqn:Hstar; simpl; [by eauto|].
  destruct (find_sam_align_score ps (split tab line)) as [s|] eqn:Hs; simpl; [|by eauto].
  destruct (getitem (split tab line) 0) as [read_id|] eqn:H0; simpl; [|by eauto].
  right. exists line, flag, ref_id, s, read_id.
  split; [by repeat split; eauto|].
  split; [by apply Z.eqb_neq|]. split; [by apply String.eqb_neq|]. done.
Qed.

Lemma getitem_length {A} (xs : list A) (i : nat) :
  (i < List.length xs)%nat -> exists x, getitem xs i = Ok x.
Proof.
  intros H. unfold getitem.
  destruct (nth_error xs i) eqn:E; eauto.
  apply nth_error_None in E. lia.
Qed.


(** A line that starts with [@] is rejected by every handler, and one that
    starts with [#] by the handler of the first pass. *)
Lemma header_line_is_rejected (ps : Pathoscope) cutoff raw c rest :
  decode raw = Ok (String c rest) ->
  (c = "@"%char ->
     (forall st, first_handler ps cutoff raw st = (Ok tt, st))
     ∧ (forall f, targeted_handler ps cutoff raw f = (Ok tt, f))
     ∧ (forall t, host_handler ps raw t = (Ok tt, t)))
  ∧ (c = "#"%char -> forall st, first_handler ps cutoff raw st = (Ok tt, st)).
Proof.
  intros Hd. split; intros ->; run_handler; rewrite Hd; done.
Qed.

(** C4 (what the code does).  A line that starts with [#] and otherwise
    reads as a mapped alignment at or above the cutoff is rejected by the
    first pass only: the targeted pass writes a record for it and the
    host-subtraction pass stores its score, because their test compares the
    whole line with [#]. *)
Theorem hash_line_is_rejected_by_first_pass_only
    (ps : Pathoscope) (cutoff : score) (raw rest : string)
    (flag : Z) (ref_id : string) (s : score) :
  reads_as ps raw (String "#" rest) flag ref_id s ->
  rest ≠ EmptyString ->
  Z.land flag 4 ≠ 4 ->
  ref_id ≠ "*" ->
  score_lt s cutoff = false ->
  (10 <= List.length (split tab (String "#" rest)))%nat ->
  ¬ accepted_by FirstPass ps cutoff raw
  ∧ accepted_by TargetedPass ps cutoff raw
  ∧ accepted_by HostSubtraction ps cutoff raw.
Proof.
  intros (Hd & (f1 & Hf1 & Hflag) & Href & Hs) Hrest Hbit Hstar Hlt Hlen.
  apply Z.eqb_neq in Hbit. apply String.eqb_neq in Hstar.
  assert (Hne : String.eqb (String "#" rest) "#" = false).
  { apply String.eqb_neq. intros [= ->]. done. }
  destruct (getitem_length (split tab (String "#" rest)) 0) as [x0 H0]; [lia|].
  destruct (getitem_length (split tab (String "#" rest)) 3) as [x3 H3]; [lia|].
  destruct (getitem_length (split tab (String "#" rest)) 9) as [x9 H9]; [lia|].
  assert (Hat : Ascii.eqb "#" "@" = false) by reflexivity.
  unfold accepts, map_default_isolates_stdout_handler,
    map_isolates_stdout_handler, map_subtractions_stdout_handler,
    bind, lift, ret, modify.
  rewrite Hd. cbv beta iota. unfold str_head. cbv beta iota.
  rewrite Hat, Hne. cbn [orb]. cbv beta iota zeta.
  rewrite Hf1. cbv beta iota. rewrite Hflag. cbv beta iota.
  rewrite Hbit. cbv beta iota. rewrite Href. cbv beta iota.
  rewrite Hstar. cbv beta iota. rewrite Hs. cbv beta iota.
  rewrite Hlt. cbv beta iota. rewrite H0, H3, H9. cbv beta iota.
  split; [|split].
  - intros H. by apply H.
  - cbn [snd app]. discriminate.
  - cbn [snd]. apply insert_non_empty.
Qed.

(** An exception in a handler leaves the state of the stage as it was:
    each handler changes its state in its last statement only. *)
Lemma handler_exception_keeps_state (ps : Pathoscope) cutoff raw e :
  (forall st st', first_handler ps cutoff raw st = (Raise e, st') -> st' = st)
  ∧ (forall f f', targeted_handler ps cutoff raw f = (Raise e, f') -> f' = f)
  ∧ (forall t t', host_handler ps raw t = (Raise e, t') -> t' = t).
Proof.
  split; [|split].
  - intros st st' H.
    destruct (first_handler_cases ps cutoff raw) as [[r Hr]|(?&?&?&?&_&_&_&_&_&Ha)].
    + rewrite Hr in H. by injection H as _ <-.
    + rewrite Ha in H. discriminate.
  - intros f f' H.
    destruct (targeted_handler_cases ps cutoff raw) as [[r Hr]|(?&?&?&?&_&_&_&_&Ha)].
    + rewrite Hr in H. by injection H as _ <-.
    + rewrite Ha in H. discriminate.
  - intros t t' H.
    destruct (host_handler_cases ps raw) as [[r Hr]|(?&?&?&?&?&_&_&_&_&Ha)].
    + rewrite Hr in H. by injection H as _ <-.
    + rewrite Ha in H. discriminate.
Qed.

(** C6 (as the code has it).  No handler catches anything: a line that is
    empty, or is not a header and has no flag field, raises [IndexError];
    one whose flag field is not an integer raises [ValueError].  The
    exception leaves the handler with the state of the stage as it was. *)
Theorem malformed_line_raises
    (ps : Pathoscope) (cutoff : score) (raw line : string) :
  decode raw = Ok line ->
  ¬ starts_with_header line ->
  bad_flag line ->
  let e := match split tab line with
           | _ :: _ :: _ => ValueError
           | _ => IndexError
           end in
  (forall st, first_handler ps cutoff raw st = (Raise e, st))
  ∧ (forall f, targeted_handler ps cutoff raw f = (Raise e, f))
  ∧ (forall t, host_handler ps raw t = (Raise e, t)).
Proof.
  intros Hd Hh Hbad. unfold bad_flag in Hbad. run_handler. rewrite Hd. simpl.
  destruct line as [|c l].
  { simpl. done. }
  simpl in Hh.
  assert (Hc1 : Ascii.eqb c "#" = false) by (apply Ascii.eqb_neq; tauto).
  assert (Hc2 : Ascii.eqb c "@" = false) by (apply Ascii.eqb_neq; tauto).
  assert (Hne : String.eqb (String c l) "#" = false).
  { apply String.eqb_neq. intros [= -> ->]. tauto. }
  simpl str_head. cbv iota beta. rewrite Hc1, Hc2, Hne. simpl orb. cbv iota.
  destruct (split tab (String c l)) as [|x0 [|x1 xs]] eqn:Hsp.
  - done.
  - done.
  - unfold getitem. simpl. rewrite Hbad. done.
Qed.

(** ** The host score table *)

(** The entry of a line decides what its handler does to any table. *)
Lemma host_record_spec (ps : Pathoscope) raw :
  match host_record decode ps raw with
  | Some (read_id, s) => forall t, host_handler ps raw t = (Ok tt, <[read_id := s]> t)
  | None => exists r, forall t, host_handler ps raw t = (r, t)
  end.
Proof.
  unfold host_record.
  destruct (host_handler_cases ps raw)
    as [[r Hr]|(line & flag & ref_id & s & read_id & _ & _ & _ & _ & Hacc)].
  - rewrite Hr. simpl. rewrite map_to_list_empty. eauto.
  - rewrite Hacc. simpl. rewrite insert_empty, map_to_list_singleton. done.
Qed.

Lemma last_score_cons (read_id k : string) (v : score) records :
  last_score read_id ((k, v) :: records)
  = match last_score read_id records with
    | Some s => Some s
    | None => if String.eqb k read_id then Some v else None
    end.
Proof.
  unfold last_score. simpl.
  destruct (String.eqb k read_id); rewrite ?last_cons;
    by destruct (last (List.filter (fun kv => String.eqb (fst kv) read_id) records)).
Qed.

(** Feeding lines to the host handler: every read holds the score of its
    last record, or what the table held for it when it has no record. *)
Lemma host_table_lookup (ps : Pathoscope) lines :
  forall t0 t read_id,
    for_each (host_handler ps) lines t0 = (Ok tt, t) ->
    t !! read_id
    = match last_score read_id (host_records decode ps lines) with
      | Some s => Some s
      | None => t0 !! read_id
      end.
Proof.
  induction lines as [|raw lines IH]; intros t0 t read_id Hrun.
  - simpl in Hrun. injection Hrun as <-. done.
  - simpl in Hrun. unfold bind in Hrun. simpl.
    pose proof (host_record_spec ps raw) as Hspec.
    destruct (host_record decode ps raw) as [[k v]|].
    + rewrite Hspec in Hrun. rewrite last_score_cons.
      rewrite (IH _ _ read_id Hrun).
      destruct (last_score read_id (host_records decode ps lines)); [done|].
      destruct (String.eqb k read_id) eqn:Hk.
      * apply String.eqb_eq in Hk as ->. by rewrite lookup_insert_eq.
      * apply String.eqb_neq in Hk. by rewrite lookup_insert_ne.
    + destruct Hspec as [r Hr]. rewrite Hr in Hrun.
      destruct r; [|discriminate]. by apply IH.
Qed.

(** ** The steps on the world *)

Lemma for_each_on_local {L A} (h : A -> M L unit) xs (w : World) (l : L) :
  for_each (fun x => on_local (h x)) xs (w, l)
  = (fst (for_each h xs l), (w, snd (for_each h xs l))).
Proof.
  revert l. induction xs as [|x xs IH]; intros l; [done|].
  simpl. unfold bind, on_local, zoom. simpl.
  destruct (h x l) as [[[]|e] l']; simpl; [|done].
  apply IH.
Qed.

(** What no single call of the body changes, the loop does not change. *)
Lemma for_each_frame {T A X} (g : T -> X) (body : A -> M T unit) xs :
  (forall x t, g (snd (body x t)) = g t) ->
  forall t, g (snd (for_each body xs t)) = g t.
Proof.
  intros Hg. induction xs as [|x xs IH]; intros t; [done|].
  simpl. unfold bind. specialize (Hg x t).
  destruct (body x t) as [[[]|e] t']; simpl in *; [|done].
  by rewrite IH.
Qed.

Ltac run_step :=
  cbv beta iota delta
    [with_local run_subprocess bind on_world on_local zoom modify ret get
     getattr lift await run_in_executor fst snd].

(** What [map_isolates] leaves behind when it returns. *)
Lemma map_isolates_returns (ps : Pathoscope) reads isolate_path proc cutoff
    (w w' : World) msg :
  map_isolates decode score_lt str_score spawn ps reads isolate_path proc cutoff w
    = (Ok msg, w') ->
  spawned w'
    = (spawned w ++ [map_isolates_command reads (isolate_path // "mapped.fastq")
                       (isolate_path // "isolates") proc])%list
  ∧ isolate_vta_path (intermediate w') = Some (isolate_path // "to_isolates.vta")
  ∧ isolate_mapped_fastq_path (intermediate w') = Some (isolate_path // "mapped.fastq")
  ∧ to_otus (intermediate w') = to_otus (intermediate w)
  ∧ lengths (intermediate w') = lengths (intermediate w).
Proof.
  unfold map_isolates. run_step.
  match goal with
  | |- context [for_each ?body ?xs ?t] =>
      assert (Hg : (fun f : World * unit => (intermediate (fst f), spawned (fst f)))
                     (snd (for_each body xs t))
                   = (fun f : World * unit => (intermediate (fst f), spawned (fst f))) t);
      [ apply (for_each_frame
                 (fun f : World * unit => (intermediate (fst f), spawned (fst f))));
        intros x [w0 l0]; cbv beta iota delta [fst snd];
        by destruct (map_isolates_stdout_handler _ _ _ _ _ _ _) as [r c]
      | destruct (for_each body xs t) as [[[]|e] [w2 l2]] ]
  end; [|discriminate].
  cbn in Hg. injection Hg as Hi Hs.
  intros [= _ <-]. cbn. rewrite Hs, Hi. done.
Qed.

(** What [map_subtractions] leaves behind when it returns. *)
Lemma map_subtractions_returns (ps : Pathoscope) subtraction proc
    (w w' : World) msg mapped :
  isolate_mapped_fastq_path (intermediate w) = Some mapped ->
  map_subtractions decode spawn ps subtraction proc w = (Ok msg, w') ->
  let command := map_subtractions_command subtraction mapped proc in
  spawned w' = (spawned w ++ [command])%list
  ∧ exists table,
      to_subtraction (intermediate w') = Some table
      ∧ for_each (host_handler ps) (spawn command) ∅ = (Ok tt, table).
Proof.
  intros Hm. unfold map_subtractions, with_local, run_subprocess.
  cbv beta iota delta [bind on_world zoom modify ret get getattr fst snd].
  rewrite Hm. rewrite for_each_on_local.
  destruct (for_each (host_handler ps)
              (spawn (map_subtractions_command subtraction mapped proc)) ∅)
    as [[[]|e] table]; cbn; [|discriminate].
  intros [= _ <-]. cbn. eauto.
Qed.


(** ** The command lines *)

Lemma str_int_not_option (z : Z) (name : string) : str_int z ≠ "--" +:+ name.
Proof.
  unfold str_int, pretty, pretty_Z. destruct z as [|p|p].
  - discriminate.
  - unfold pretty, pretty_positive, pretty, pretty_N. case_decide; [discriminate|].
    apply (pretty_N_go_ne_dash (N.pos p) EmptyString ("-" +:+ name)). discriminate.
  - intros [= H]. revert H.
    unfold pretty, pretty_positive, pretty, pretty_N. case_decide; [discriminate|].
    apply (pretty_N_go_ne_dash (N.pos p) EmptyString name). discriminate.
Qed.

Lemma has_comma_app (a b : string) : has_comma (a +:+ "," +:+ b) = true.
Proof.
  induction a as [|c a IH]; simpl; [done|].
  rewrite IH. apply orb_true_r.
Qed.

(** C8 (what the code does).  In the command of the first pass the
    literals [--no-unal] and [--local] have no comma between them and make
    the single argument [--no-unal--local]: no argument of that command is
    [--local].  The targeted pass passes [--local], [-k 100] and [--al]
    with the path of the side file, and the host-subtraction pass passes
    [--local]. *)
Theorem first_pass_command_has_no_local_flag
    (reads : Reads) (index : @Index version) (proc : Z)
    (mapped reference : Path) (subtraction : Subtraction) :
  ¬ In (AStr "--local") (map_default_isolates_command reads index proc)
  ∧ nth_error (map_default_isolates_command reads index proc) 3
    = Some (AStr "--no-unal--local")
  ∧ In (AStr "--local") (map_isolates_command reads mapped reference proc)
  ∧ nth_error (map_isolates_command reads mapped reference proc) 11 = Some (AStr "-k")
  ∧ nth_error (map_isolates_command reads mapped reference proc) 12 = Some (AStr "100")
  ∧ nth_error (map_isolates_command reads mapped reference proc) 13 = Some (AStr "--al")
  ∧ nth_error (map_isolates_command reads mapped reference proc) 14 = Some (APath mapped)
  ∧ In (AStr "--local") (map_subtractions_command subtraction mapped proc).
Proof.
  split.
  { unfold map_default_isolates_command. simpl.
    intros H. repeat (destruct H as [H|H]; [try discriminate H|]); try done.
    - injection H as H. by apply (str_int_not_option proc "local").
    - injection H as H.
      pose proof (has_comma_app (str_path (left reads)) (str_path (right reads))) as Hc.
      rewrite H in Hc. discriminate. }
  split; [reflexivity|].
  split; [simpl; tauto|].
  repeat (split; [reflexivity|]).
  simpl; tauto.
Qed.

(** C3 (what the code does).  The trailing comma after the path of the
    reference file makes [fasta_path] a tuple of one path.  That tuple, not
    a path, is what [index.write_isolate_fasta] receives and what stands in
    the command of [bowtie2-build]; the length table that the call returns
    is stored in [intermediate.lengths]. *)
Theorem isolate_fasta_path_is_a_tuple
    (index : @Index version) (proc proc' : Z) (isolate_path : Path)
    (w w1 w2 : World) (msg1 msg2 : string) :
  write_isolate_fasta index proc isolate_path w = (Ok msg1, w1) ->
  build_isolate_index spawn isolate_path proc' w1 = (Ok msg2, w2) ->
  let fasta_path := ATuple [APath (isolate_path // "isolate_index.fa")] in
  let command := build_isolate_index_command fasta_path isolate_path proc' in
  exists otu_ids table fs,
    comprehension (get_otu_id_by_sequence_id index)
      (elements (to_otus (intermediate w))) = Ok otu_ids
    ∧ write_isolate_fasta_to index otu_ids fasta_path proc (files w) = Ok (table, fs)
    ∧ lengths (intermediate w2) = Some table
    ∧ spawned w2 = (spawned w ++ [command])%list
    ∧ nth_error command 3 = Some fasta_path
    ∧ is_path fasta_path = false.
Proof.
  unfold write_isolate_fasta, build_isolate_index. run_step.
  destruct (comprehension _ _) as [otu_ids|] eqn:Hc; [|discriminate].
  destruct (write_isolate_fasta_to _ _ _ _ _) as [[table fs]|] eqn:Hw; [|discriminate].
  intros [= _ <-]. cbn. intros [= _ <-]. cbn.
  exists otu_ids, table, fs. done.
Qed.

(** ** The report *)

(** The loop over the report reads the world and does not change it. *)
Lemma reassignment_hit_world (index : @Index version) sid hit (w : World) :
  snd (reassignment_hit index sid hit w) = w.
Proof.
  unfold reassignment_hit. run_step.
  destruct (get_otu_id_by_sequence_id index sid); [|done].
  destruct (dict_getitem (manifest index) _); [|done].
  destruct (coverage (intermediate w)) as [cov|]; [|done].
  destruct (subscript cov sid) as [hit_coverage|]; [|done].
  destruct (hit_coverage_value hit_coverage); [|done].
  by destruct (hit_depth_value hit_coverage).
Qed.

Lemma reassignment_hits_world (index : @Index version) report :
  forall hits (w : World), snd (reassignment_hits index report hits w) = w.
Proof.
  induction report as [|[sid hit] report IH]; intros hits w; [done|].
  simpl. unfold bind.
  pose proof (reassignment_hit_world index sid hit w) as Hw.
  destruct (reassignment_hit index sid hit w) as [[h|e] w1]; simpl in Hw; subst w1.
  - apply IH.
  - done.
Qed.

Lemma reassignment_hits_app (index : @Index version) pre post :
  forall hits hits1 (w : World),
    reassignment_hits index pre hits w = (Ok hits1, w) ->
    reassignment_hits index (pre ++ post) hits w
    = reassignment_hits index post hits1 w.
Proof.
  induction pre as [|[sid hit] pre IH]; intros hits hits1 w Hpre.
  - simpl in Hpre. by injection Hpre as ->.
  - simpl in *. unfold bind in *.
    pose proof (reassignment_hit_world index sid hit w) as Hw.
    destruct (reassignment_hit index sid hit w) as [[h|e] w1]; simpl in Hw; subst w1.
    + by apply IH.
    + discriminate.
Qed.

(** C1 (what the code does).  [intermediate.coverage] receives the
    awaitable that [run_in_executor] returns, not its result.  With a
    report of at least one entry the loop subscripts that awaitable at the
    first entry: [reassignment] raises [TypeError], no hit is built and
    [results] is left as it was. *)
Theorem reassignment_raises_at_first_hit
    (ps : Pathoscope) (isolate_path : Path) (index : @Index version) (w : World)
    (vta : Path) (out : PathoOutput) (fs1 fs2 : Files)
    (sid : string) (hit : gmap string hvalue) (rest : list (string * gmap string hvalue))
    (otu_id : string) (v : version) :
  isolate_vta_path (intermediate w) = Some vta ->
  run_patho ps vta (isolate_path // "reassigned.vta") (files w) = Ok (out, fs1) ->
  write_report ps (isolate_path // "report.tsv")
    (pi out) (refs out) (len_list (reads out)) (init_pi out)
    (best_hit_initial out) (best_hit_initial_reads out)
    (best_hit_final out) (best_hit_final_reads out)
    (level_1_initial out) (level_2_initial out)
    (level_1_final out) (level_2_final out) fs1
    = Ok ((sid, hit) :: rest, fs2) ->
  get_otu_id_by_sequence_id index sid = Ok otu_id ->
  manifest index !! otu_id = Some v ->
  exists w',
    reassignment ps isolate_path index w = (Raise TypeError, w')
    ∧ results w' = results w
    ∧ coverage (intermediate w')
      = Some (CovAwaitable (run_in_executor
          (calculate_coverage ps (isolate_path // "reassigned.vta")
             (lengths (intermediate w))))).
Proof.
  intros Hvta Hrun Hrep Hotu Hman.
  unfold reassignment, reassignment_report. run_step.
  rewrite Hvta. cbn [files]. rewrite Hrun. cbn [files with_files].
  rewrite Hrep. cbn [reassignment_hits].
  unfold reassignment_hit, dict_getitem. run_step.
  rewrite Hotu, Hman. cbn.
  eexists. split; [reflexivity|]. done.
Qed.

(** With an empty report the loop has nothing to subscript and
    [reassignment] returns, with no hit. *)
Lemma reassignment_with_empty_report
    (ps : Pathoscope) (isolate_path : Path) (index : @Index version) (w : World)
    (vta : Path) (out : PathoOutput) (fs1 fs2 : Files) :
  isolate_vta_path (intermediate w) = Some vta ->
  run_patho ps vta (isolate_path // "reassigned.vta") (files w) = Ok (out, fs1) ->
  write_report ps (isolate_path // "report.tsv")
    (pi out) (refs out) (len_list (reads out)) (init_pi out)
    (best_hit_initial out) (best_hit_initial_reads out)
    (best_hit_final out) (best_hit_final_reads out)
    (level_1_initial out) (level_2_initial out)
    (level_1_final out) (level_2_final out) fs1
    = Ok ([], fs2) ->
  exists w',
    reassignment ps isolate_path index w = (Ok tt, w')
    ∧ results w' !! "results" = Some (RHits [])
    ∧ results w' !! "ready" = Some (RBool true).
Proof.
  intros Hvta Hrun Hrep.
  unfold reassignment, reassignment_report. run_step.
  rewrite Hvta. cbn [files]. rewrite Hrun. cbn [files with_files].
  rewrite Hrep. cbn [reassignment_hits]. run_step.
  eexists. split; [reflexivity|]. cbn. split.
  - by rewrite lookup_insert_eq.
  - rewrite lookup_insert_ne by done. rewrite lookup_insert_ne by done.
    by rewrite lookup_insert_eq.
Qed.


(** ** Coverage and depth *)

(** [round] gives an integer nearest to its argument. *)
Lemma round_nearest (x : Q) :
  (x - (1 # 2) <= inject_Z (round x) <= x + (1 # 2))%Q.
Proof.
  unfold round.
  pose proof (Qfloor_le x) as Hlo. pose proof (Qlt_floor x) as Hhi.
  rewrite inject_Z_plus in Hhi. change (inject_Z 1) with 1%Q in Hhi.
  destruct (Qcompare_spec (x - inject_Z (Qfloor x)) (1 # 2)) as [H|H|H].
  - destruct (Z.even (Qfloor x)); rewrite ?inject_Z_plus;
      change (inject_Z 1) with 1%Q; split; lra.
  - split; lra.
  - rewrite inject_Z_plus. change (inject_Z 1) with 1%Q. split; lra.
Qed.

Lemma round_bounds (x : Q) (n : Z) :
  (0 <= x <= inject_Z n)%Q -> 0 <= round x <= n.
Proof.
  intros [H0 Hn]. pose proof (round_nearest x) as [Hl Hu].
  split.
  - assert (H : (-1 < inject_Z (round x))%Q) by lra.
    change (-1)%Q with (inject_Z (-1)) in H. rewrite <- Zlt_Qlt in H. lia.
  - assert (H : (inject_Z (round x) < inject_Z (n + 1))%Q).
    { rewrite inject_Z_plus. change (inject_Z 1) with 1%Q. lra. }
    rewrite <- Zlt_Qlt in H. lia.
Qed.

Lemma count0_bounds (xs : list Z) : 0 <= count0 xs <= len_list xs.
Proof.
  unfold count0, len_list. split; [lia|].
  apply inj_le. induction xs as [|x xs IH]; simpl; [lia|].
  destruct (x =? 0)%Z; simpl; lia.
Qed.

Lemma share_bounds (k n : Z) :
  0 <= k <= n -> 0 < n -> (0 <= 1 - inject_Z k / inject_Z n <= 1)%Q.
Proof.
  intros [Hk Hkn] Hn.
  assert (Hn' : (0 < inject_Z n)%Q).
  { change 0%Q with (inject_Z 0). by rewrite <- Zlt_Qlt. }
  assert (H0 : (0 <= inject_Z k / inject_Z n)%Q).
  { apply Qle_shift_div_l; [done|]. rewrite Qmult_0_l.
    change 0%Q with (inject_Z 0). by rewrite <- Zle_Qle. }
  assert (H1 : (inject_Z k / inject_Z n <= 1)%Q).
  { apply Qle_shift_div_r; [done|]. rewrite Qmult_1_l. by rewrite <- Zle_Qle. }
  split; lra.
Qed.


(** ** Subtraction and reassignment *)

(** C10.  When [replace_after_subtraction] puts the content of its first
    file at its second path, then once [subtract_mapping] has returned, the
    path in [intermediate.isolate_vta_path] holds what [subtract] wrote to
    [subtracted.vta], and that path is the input from which [reassignment]
    runs [run_patho]. *)
Theorem reassignment_reads_the_subtracted_file
    (ps : Pathoscope) (isolate_path : Path) (index : @Index version)
    (w w' : World) (msg : string) (vta : Path) :
  replaces ps ->
  isolate_vta_path (intermediate w) = Some vta ->
  subtract_mapping ps isolate_path w = (Ok msg, w') ->
  exists table n fs1,
    to_subtraction (intermediate w) = Some table
    ∧ subtract ps vta (isolate_path // "subtracted.vta") table (files w) = Ok (n, fs1)
    ∧ files w' !! vta = fs1 !! (isolate_path // "subtracted.vta")
    ∧ reassignment ps isolate_path index w'
      = bind (await (run_in_executor
                (run_patho ps vta (isolate_path // "reassigned.vta"))))
             (reassignment_report ps isolate_path index) w'.
Proof.
  intros Hrep Hvta. unfold subtract_mapping. run_step. rewrite Hvta.
  destruct (to_subtraction (intermediate w)) as [table|]; [|discriminate].
  cbn [files]. 
  destruct (subtract ps vta _ table (files w)) as [[n fs1]|] eqn:Hsub; [|discriminate].
  change (intermediate (with_files (fun _ => fs1) w)) with (intermediate w).
  rewrite Hvta.
  change (files (with_files (fun _ => fs1) w)) with fs1.
  destruct (replace_after_subtraction ps _ vta fs1) as [[[] fs2]|] eqn:Hmove;
    [|discriminate].
  intros [= _ <-].
  exists table, n, fs1. split; [done|]. split; [done|]. split.
  - cbn. by apply (Hrep _ _ _ _ Hmove).
  - unfold reassignment. run_step. cbn. by rewrite Hvta.
Qed.

End Properties.

(** ** The statements at the concrete run *)

(** The command of the first pass in the concrete run. *)
Example first_pass_command_of_the_run :
  map_default_isolates_command Sample.reads Sample.index 4
  = [ AStr "bowtie2"; AStr "-p"; AStr "4"; AStr "--no-unal--local";
      AStr "--score-min"; AStr "L,20,1.0"; AStr "-N"; AStr "0";
      AStr "-L"; AStr "15"; AStr "-x"; APath ["work"; "index"; "reference"];
      AStr "-U"; AStr "work/reads/reads_1.fq,work/reads/reads_2.fq" ].
Proof. reflexivity. Qed.

(** What the handlers of the targeted and of the host-subtraction pass do
    with a line that starts with [#]. *)
Example targeted_handler_writes_hash_line :
  map_isolates_stdout_handler Sample.decode Sample.score_lt Sample.str_score
    Sample.pathoscope Sample.p_score_cutoff (Sample.alignment "#r1" "8") []
  = (Ok tt, ["#r1,ref1,7,4,12.0" +:+ newline]).
Proof. reflexivity. Qed.

Example host_handler_stores_hash_line :
  map_subtractions_stdout_handler Sample.decode Sample.pathoscope
    (Sample.alignment "#r1" "8") ∅
  = (Ok tt, {[ "#r1" := 12%Q ]}).
Proof. vm_compute. reflexivity. Qed.



Lemma hash_line_is_rejected_by_first_pass_only_witness :
  ¬ accepts Sample.decode Sample.score_lt Sample.str_score
      FirstPass Sample.pathoscope Sample.p_score_cutoff (Sample.alignment "#r1" "8")
  ∧ accepts Sample.decode Sample.score_lt Sample.str_score
      TargetedPass Sample.pathoscope Sample.p_score_cutoff (Sample.alignment "#r1" "8")
  ∧ accepts Sample.decode Sample.score_lt Sample.str_score
      HostSubtraction Sample.pathoscope Sample.p_score_cutoff (Sample.alignment "#r1" "8").
Proof.
  apply (hash_line_is_rejected_by_first_pass_only
           Sample.decode Sample.score_lt Sample.str_score
           Sample.pathoscope Sample.p_score_cutoff
           (Sample.alignment "#r1" "8")
           (Sample.alignment "r1" "8") 0 "ref1" 12%Q).
  - repeat split; try reflexivity. exists "0". split; reflexivity.
  - discriminate.
  - vm_compute. discriminate.
  - discriminate.
  - reflexivity.
  - vm_compute. lia.
Defined.

Lemma malformed_line_raises_witness :
  Sample.decode "garbage" = Ok "garbage"
  ∧ ¬ starts_with_header "garbage"
  ∧ bad_flag "garbage"
  ∧ (forall st, map_default_isolates_stdout_handler Sample.decode Sample.score_lt
                  Sample.pathoscope Sample.p_score_cutoff "garbage" st
                = (Raise IndexError, st))
  ∧ (forall f, map_isolates_stdout_handler Sample.decode Sample.score_lt
                 Sample.str_score Sample.pathoscope Sample.p_score_cutoff "garbage" f
               = (Raise IndexError, f))
  ∧ (forall t, map_subtractions_stdout_handler Sample.decode Sample.pathoscope
                 "garbage" t
               = (Raise IndexError, t)).
Proof.
  assert (H1 : Sample.decode "garbage" = Ok "garbage") by reflexivity.
  assert (H2 : ¬ starts_with_header "garbage").
  { simpl. intros [H|H]; discriminate H. }
  assert (H3 : bad_flag "garbage") by exact I.
  split; [exact H1|]. split; [exact H2|]. split; [exact H3|].
  exact (malformed_line_raises Sample.decode Sample.score_lt Sample.str_score
           Sample.pathoscope Sample.p_score_cutoff "garbage" "garbage" H1 H2 H3).
Defined.

(** C6, as stated, fails: a line without fields makes the handler of the
    first pass raise [IndexError]. *)
Lemma first_handler_does_not_skip_malformed :
  ¬ skips_malformed Sample.decode
      (map_default_isolates_stdout_handler Sample.decode Sample.score_lt
         Sample.pathoscope Sample.p_score_cutoff).
Proof.
  intros H. specialize (H "garbage" "garbage" ∅ eq_refl).
  assert (H2 : ¬ starts_with_header "garbage").
  { simpl. intros [H'|H']; discriminate H'. }
  specialize (H H2 I). vm_compute in H. discriminate.
Qed.



Lemma isolate_fasta_path_is_a_tuple_witness :
  exists w1 w2,
    write_isolate_fasta Sample.index 4 Sample.isolate_path Sample.world_candidates
    = (Ok "Produced isolate fasta file.", w1)
    ∧ build_isolate_index Sample.spawn Sample.isolate_path 4 w1
      = (Ok "Built isolate index.", w2)
    ∧ lengths (intermediate w2) = Some {[ "ref1" := 3 ]}
    ∧ spawned w2
      = [build_isolate_index_command
           (ATuple [APath (Sample.isolate_path // "isolate_index.fa")])
           Sample.isolate_path 4]
    ∧ is_path (ATuple [APath (Sample.isolate_path // "isolate_index.fa")]) = false.
Proof.
  set (r1 := write_isolate_fasta Sample.index 4 Sample.isolate_path
               Sample.world_candidates).
  set (r2 := build_isolate_index Sample.spawn Sample.isolate_path 4 (snd r1)).
  assert (H1 : r1 = (Ok "Produced isolate fasta file.", snd r1)).
  { vm_compute. reflexivity. }
  assert (H2 : r2 = (Ok "Built isolate index.", snd r2)).
  { vm_compute. reflexivity. }
  destruct (isolate_fasta_path_is_a_tuple Sample.spawn Sample.index 4 4
              Sample.isolate_path Sample.world_candidates (snd r1) (snd r2) _ _ H1 H2)
    as (otu_ids & table & fs & Hc & Hw & Hl & Hs & _ & Hp).
  exists (snd r1), (snd r2). split; [exact H1|]. split; [exact H2|].
  split. { rewrite Hl. vm_compute in Hw. by injection Hw as <- _. }
  split; [exact Hs|exact Hp].
Defined.

Lemma reassignment_raises_at_first_hit_witness :
  exists w',
    reassignment Sample.pathoscope Sample.isolate_path Sample.index Sample.world_mapped
    = (Raise TypeError, w')
    ∧ results w' = results Sample.world_mapped.
Proof.
  destruct (reassignment_raises_at_first_hit
              Sample.pathoscope Sample.isolate_path Sample.index Sample.world_mapped
              (Sample.isolate_path // "to_isolates.vta")
              (Sample.patho_output ["r1"; "r2"])
              (<[Sample.isolate_path // "reassigned.vta" :=
                   ["r1,ref1,7,4,12.0" +:+ newline; "r2,ref1,7,4,9.0" +:+ newline]]>
                 (files Sample.world_mapped))
              (<[Sample.isolate_path // "report.tsv" := ["ref1"]]>
                 (<[Sample.isolate_path // "reassigned.vta" :=
                      ["r1,ref1,7,4,12.0" +:+ newline; "r2,ref1,7,4,9.0" +:+ newline]]>
                    (files Sample.world_mapped)))
              "ref1" {[ "reads" := HStat 2 ]} [] "otu1" 3)
    as (w' & Hr & Hres & _).
  - reflexivity.
  - vm_compute. reflexivity.
  - vm_compute. reflexivity.
  - reflexivity.
  - reflexivity.
  - exists w'. split; [exact Hr|exact Hres].
Defined.





Lemma sample_replaces : replaces Sample.pathoscope.
Proof.
  intros src dst fs fs'. simpl. unfold Sample.replace_after_subtraction.
  destruct (fs !! src) as [c|]; [|discriminate].
  intros [= <-]. by rewrite lookup_insert_eq.
Qed.

Lemma reassignment_reads_the_subtracted_file_witness :
  exists w',
    subtract_mapping Sample.pathoscope Sample.isolate_path Sample.world_mapped
    = (Ok "Performed subtraction on subtraction mapped reads.", w')
    ∧ files w' !! (Sample.isolate_path // "to_isolates.vta")
      = Some ["r1,ref1,7,4,12.0" +:+ newline]
    ∧ reassignment Sample.pathoscope Sample.isolate_path Sample.index w'
      = bind (await (run_in_executor
                (run_patho Sample.pathoscope (Sample.isolate_path // "to_isolates.vta")
                   (Sample.isolate_path // "reassigned.vta"))))
             (reassignment_report Sample.pathoscope Sample.isolate_path Sample.index) w'.
Proof.
  set (r := subtract_mapping Sample.pathoscope Sample.isolate_path Sample.world_mapped).
  assert (H : r = (Ok "Performed subtraction on subtraction mapped reads.", snd r)).
  { vm_compute. reflexivity. }
  destruct (reassignment_reads_the_subtracted_file
              Sample.pathoscope Sample.isolate_path Sample.index
              Sample.world_mapped (snd r) _
              (Sample.isolate_path // "to_isolates.vta")
              sample_replaces eq_refl H)
    as (table & n & fs1 & Ht & Hs & Hf & Hr).
  exists (snd r). split; [exact H|]. split; [|exact Hr].
  vm_compute. reflexivity.
Defined.

(** ** More on the loops over the lines *)

Section Loops.

Context {score pdata stat version : Type}.
Variable decode : string -> result string.
Variable score_lt : score -> score -> bool.
Variable str_score : score -> string.
Variable spawn : list arg -> list string.
Variable format_set : gset string -> string.

#[local] Abbreviation Pathoscope := (@Pathoscope score pdata stat version).
#[local] Abbreviation World := (@World score stat version).
#[local] Abbreviation first_handler := (map_default_isolates_stdout_handler decode score_lt).
#[local] Abbreviation targeted_handler := (map_isolates_stdout_handler decode score_lt str_score).
#[local] Abbreviation host_handler := (map_subtractions_stdout_handler decode).
#[local] Abbreviation first_ref_of := (first_ref decode score_lt).
#[local] Abbreviation first_refs_of := (first_refs decode score_lt).
#[local] Abbreviation record_in := (targeted_record decode score_lt str_score).
#[local] Abbreviation records_in := (targeted_records decode score_lt str_score).

Lemma for_each_app {S A} (body : A -> M S unit) xs ys (s : S) :
  for_each body (xs ++ ys) s
  = match for_each body xs s with
    | (Ok _, s') => for_each body ys s'
    | (Raise e, s') => (Raise e, s')
    end.
Proof.
  revert s. induction xs as [|x xs IH]; intros s; [done|].
  simpl. unfold bind. destruct (body x s) as [[[]|e] s1]; [apply IH|done].
Qed.

(** The reference of a line decides what its handler does to any set. *)
Lemma first_ref_spec (ps : Pathoscope) cutoff raw :
  match first_ref_of ps cutoff raw with
  | Some r => forall st, first_handler ps cutoff raw st = (Ok tt, st ∪ {[r]})
  | None => exists res, forall st, first_handler ps cutoff raw st = (res, st)
  end.
Proof.
  unfold first_ref.
  destruct (first_handler_cases decode score_lt str_score ps cutoff raw)
    as [[r Hr]|(line & flag & ref_id & s & _ & _ & _ & _ & _ & Hacc)].
  - rewrite Hr. simpl. rewrite elements_empty. eauto.
  - rewrite Hacc. simpl. rewrite (left_id_L ∅ (∪)), elements_singleton. done.
Qed.

Lemma targeted_record_spec (ps : Pathoscope) cutoff raw :
  match record_in ps cutoff raw with
  | Some c => forall f, targeted_handler ps cutoff raw f = (Ok tt, (f ++ [c])%list)
  | None => exists res, forall f, targeted_handler ps cutoff raw f = (res, f)
  end.
Proof.
  unfold targeted_record.
  destruct (targeted_handler_cases decode score_lt str_score ps cutoff raw)
    as [[r Hr]|(line & flag & ref_id & s & _ & _ & _ & _ & Hacc)].
  - rewrite Hr. simpl. eauto.
  - rewrite Hacc. simpl. done.
Qed.

(** The loop of the first pass: when it returns, the set has grown by the
    references of the lines. *)
Lemma first_loop_returns (ps : Pathoscope) cutoff lines :
  forall st st',
    for_each (first_handler ps cutoff) lines st = (Ok tt, st') ->
    st' = st ∪ list_to_set (first_refs_of ps cutoff lines).
Proof.
  induction lines as [|raw lines IH]; intros st st' Hrun.
  - simpl in Hrun. injection Hrun as <-. cbn [first_refs].
    by rewrite list_to_set_nil, (right_id_L ∅ (∪)).
  - simpl in Hrun. unfold bind in Hrun. simpl.
    pose proof (first_ref_spec ps cutoff raw) as Hspec.
    destruct (first_ref_of ps cutoff raw) as [r|].
    + rewrite Hspec in Hrun. rewrite (IH _ _ Hrun).
      by rewrite list_to_set_cons, (assoc_L (∪)).
    + destruct Hspec as [res Hres]. rewrite Hres in Hrun.
      destruct res; [|discriminate]. by apply IH.
Qed.

Lemma targeted_loop_returns (ps : Pathoscope) cutoff lines :
  forall f f',
    for_each (targeted_handler ps cutoff) lines f = (Ok tt, f') ->
    f' = (f ++ records_in ps cutoff lines)%list.
Proof.
  induction lines as [|raw lines IH]; intros f f' Hrun.
  - simpl in *. injection Hrun as <-. by rewrite app_nil_r.
  - simpl in Hrun. unfold bind in Hrun. simpl.
    pose proof (targeted_record_spec ps cutoff raw) as Hspec.
    destruct (record_in ps cutoff raw) as [c|].
    + rewrite Hspec in Hrun. rewrite (IH _ _ Hrun).
      by rewrite <- app_assoc.
    + destruct Hspec as [res Hres]. rewrite Hres in Hrun.
      destruct res; [|discriminate]. by apply IH.
Qed.

(** A loop that raises has run a prefix of its list and raised at the
    next element. *)
Lemma for_each_raises {S A} (body : A -> M S unit) xs :
  forall (s s' : S) e,
    for_each body xs s = (Raise e, s') ->
    exists pre bad post s1,
      xs = (pre ++ bad :: post)%list
      ∧ for_each body pre s = (Ok tt, s1)
      ∧ body bad s1 = (Raise e, s').
Proof.
  induction xs as [|x xs IH]; intros s s' e Hrun; [discriminate|].
  simpl in Hrun. unfold bind in Hrun.
  destruct (body x s) as [[[]|e1] s1] eqn:Hx.
  - destruct (IH _ _ _ Hrun) as (pre & bad & post & s2 & -> & Hpre & Hbad).
    exists (x :: pre), bad, post, s2. split; [done|]. split; [|done].
    simpl. unfold bind. by rewrite Hx.
  - injection Hrun as <- <-. exists [], x, xs, s. done.
Qed.

Lemma on_world_zoom_run {S L A} (proj : World -> S) (upd : S -> World -> World)
    (m : M S A) (w : World) (l : L) :
  on_world (zoom proj upd m) (w, l)
  = (fst (m (proj w)), (upd (snd (m (proj w))) w, l)).
Proof. unfold on_world, zoom. simpl. by destruct (m (proj w)). Qed.

(** A handler run on a component of the world, for the whole loop. *)
Lemma for_each_on_world_zoom {S L A} (proj : World -> S) (upd : S -> World -> World)
    (h : A -> M S unit) xs :
  (forall s w, proj (upd s w) = s) ->
  (forall s s' w, upd s' (upd s w) = upd s' w) ->
  forall (w : World) (l : L),
    upd (proj w) w = w ->
    for_each (fun x => on_world (zoom proj upd (h x))) xs (w, l)
    = (fst (for_each h xs (proj w)), (upd (snd (for_each h xs (proj w))) w, l)).
Proof.
  intros Hpu Huu. induction xs as [|x xs IH]; intros w l Hid.
  - simpl. by rewrite Hid.
  - simpl. unfold bind. rewrite on_world_zoom_run.
    destruct (h x (proj w)) as [[[]|e] s1]; simpl; [|done].
    rewrite IH by (by rewrite Hpu, Huu).
    by rewrite Hpu, Huu.
Qed.

Ltac run_world :=
  cbv beta iota delta
    [with_local run_subprocess bind on_world on_local zoom modify ret get
     getattr lift await run_in_executor fst snd].

(** The components of the world that a handler reaches. *)
Lemma to_otus_lens :
  (forall s (w : World), to_otus (intermediate (with_intermediate (set_to_otus s) w)) = s)
  ∧ (forall s s' (w : World),
       with_intermediate (set_to_otus s') (with_intermediate (set_to_otus s) w)
       = with_intermediate (set_to_otus s') w)
  ∧ (forall w : World,
       with_intermediate (set_to_otus (to_otus (intermediate w))) w = w).
Proof.
  split; [done|]. split; [done|]. by intros [[] ? ? ?].
Qed.

Lemma file_lens (path : Path) :
  (forall c (w : World), file_at path (with_files (<[path := c]>) w) = c)
  ∧ (forall c c' (w : World),
       with_files (<[path := c']>) (with_files (<[path := c]>) w)
       = with_files (<[path := c']>) w)
  ∧ (forall (w : World) c, files w !! path = Some c ->
       with_files (<[path := file_at path w]>) w = w).
Proof.
  split; [|split].
  - intros c w. unfold file_at, with_files. simpl. by rewrite lookup_insert_eq.
  - intros c c' w. unfold with_files. simpl. by rewrite insert_insert_eq.
  - intros [i fs sp rs] c Hc. unfold file_at, with_files. simpl in *.
    rewrite Hc. simpl. by rewrite insert_id.
Qed.


(** Whether the handler of the first pass returns or raises on a line does
    not depend on the set. *)
Lemma first_handler_outcome (ps : Pathoscope) cutoff raw st :
  fst (first_handler ps cutoff raw st) = fst (first_handler ps cutoff raw ∅).
Proof.
  destruct (first_handler_cases decode score_lt str_score ps cutoff raw)
    as [[r Hr]|(?&?&?&?&_&_&_&_&_&Ha)].
  - by rewrite !Hr.
  - by rewrite !Ha.
Qed.

Lemma first_loop_complete (ps : Pathoscope) cutoff lines :
  Forall (returns_on (first_handler ps cutoff) ∅) lines ->
  forall st,
    for_each (first_handler ps cutoff) lines st
    = (Ok tt, st ∪ list_to_set (first_refs_of ps cutoff lines)).
Proof.
  induction 1 as [|raw lines Hraw _ IH]; intros st.
  - cbn. by rewrite (right_id_L ∅ (∪)).
  - cbn [for_each first_refs]. unfold bind.
    unfold returns_on in Hraw.
    pose proof (first_ref_spec ps cutoff raw) as Hspec.
    destruct (first_ref_of ps cutoff raw) as [r|].
    + rewrite Hspec, IH. by rewrite list_to_set_cons, (assoc_L (∪)).
    + destruct Hspec as [res Hres]. rewrite Hres in Hraw |- *.
      simpl in Hraw. subst res. apply IH.
Qed.

Lemma first_loop_returns_on_all (ps : Pathoscope) cutoff lines :
  forall st st',
    for_each (first_handler ps cutoff) lines st = (Ok tt, st') ->
    Forall (returns_on (first_handler ps cutoff) ∅) lines.
Proof.
  induction lines as [|raw lines IH]; intros st st' Hrun; [constructor|].
  simpl in Hrun. unfold bind in Hrun.
  pose proof (first_handler_outcome ps cutoff raw st) as Hout.
  destruct (first_handler ps cutoff raw st) as [[[]|e] st1]; [|discriminate].
  constructor; [|by eapply IH]. unfold returns_on. by rewrite <- Hout.
Qed.

Lemma first_refs_perm (ps : Pathoscope) cutoff lines lines' :
  lines ≡ₚ lines' -> first_refs_of ps cutoff lines ≡ₚ first_refs_of ps cutoff lines'.
Proof.
  induction 1 as [|x l l' _ IH|x y l|l1 l2 l3 _ IH1 _ IH2]; simpl.
  - done.
  - destruct (first_ref_of ps cutoff x); [by constructor|done].
  - destruct (first_ref_of ps cutoff x), (first_ref_of ps cutoff y);
      try done. apply perm_swap.
  - by etrans.
Qed.

(** X2.  The candidate set does not depend on the order of the lines:
    when the loop of the first pass returns on some lines, it returns with
    the same set on every rearrangement of them. *)
Theorem candidate_set_ignores_the_order
    (ps : Pathoscope) (cutoff : score) (lines lines' : list string)
    (st st' : gset string) :
  lines ≡ₚ lines' ->
  for_each (first_handler ps cutoff) lines st = (Ok tt, st') ->
  for_each (first_handler ps cutoff) lines' st = (Ok tt, st').
Proof.
  intros Hperm Hrun.
  pose proof (first_loop_returns_on_all ps cutoff lines st st' Hrun) as Hall.
  apply first_loop_returns in Hrun. subst st'.
  rewrite first_loop_complete.
  - do 2 f_equal. apply list_to_set_perm_L. symmetry. by apply first_refs_perm.
  - by apply (Permutation_Forall Hperm).
Qed.

(** X3.  A line on which the handler raises ends the first pass: the
    step raises the same exception, the references of the lines before it
    stay in the candidate set, and the lines after it are not read. *)
Theorem first_pass_stops_at_the_raising_line
    (ps : Pathoscope) (reads : Reads) (index : @Index version) (proc : Z)
    (cutoff : score) (w : World) (pre post : list string) (bad : string) (e : exn) :
  spawn (map_default_isolates_command reads index proc) = (pre ++ bad :: post)%list ->
  Forall (returns_on (first_handler ps cutoff) ∅) pre ->
  fst (first_handler ps cutoff bad ∅) = Raise e ->
  map_default_isolates decode score_lt spawn format_set ps reads index proc cutoff w
  = (Raise e,
     with_intermediate
       (set_to_otus (to_otus (intermediate w)
                     ∪ list_to_set (first_refs_of ps cutoff pre)))
       (with_spawned
          (fun cs => (cs ++ [map_default_isolates_command reads index proc])%list) w)).
Proof.
  intros Hlines Hpre Hbad.
  unfold map_default_isolates, with_local, run_subprocess.
  unfold bind at 1. unfold bind at 1. unfold on_world at 1, zoom at 1, modify at 1.
  cbn [fst snd].
  destruct to_otus_lens as (L1 & L2 & L3).
  rewrite (for_each_on_world_zoom _ _ _ _ L1 L2) by apply L3.
  rewrite Hlines, for_each_app, (first_loop_complete ps cutoff pre Hpre).
  cbn [for_each]. unfold bind.
  pose proof (first_handler_outcome ps cutoff bad
    (to_otus (intermediate (with_spawned
       (fun cs => (cs ++ [map_default_isolates_command reads index proc])%list) w))
     ∪ list_to_set (first_refs_of ps cutoff pre))) as Hout.
  rewrite Hbad in Hout.
  destruct (handler_exception_keeps_state decode score_lt str_score ps cutoff bad e)
    as (Hkeep & _ & _).
  match goal with
  | |- context [first_handler ps cutoff bad ?s] =>
      destruct (first_handler ps cutoff bad s) as [r s1] eqn:Hrun
  end.
  simpl in Hout. subst r. apply Hkeep in Hrun. subst s1.
  cbn [fst snd]. reflexivity.
Qed.


Lemma targeted_handler_outcome (ps : Pathoscope) cutoff raw f :
  fst (targeted_handler ps cutoff raw f) = fst (targeted_handler ps cutoff raw []).
Proof.
  destruct (targeted_handler_cases decode score_lt str_score ps cutoff raw)
    as [[r Hr]|(?&?&?&?&_&_&_&_&Ha)].
  - by rewrite !Hr.
  - by rewrite !Ha.
Qed.


(** The world that [map_isolates] leaves when it returns. *)
Lemma map_isolates_world (ps : Pathoscope) reads isolate_path proc cutoff
    (w w' : World) msg :
  map_isolates decode score_lt str_score spawn ps reads isolate_path proc cutoff w
    = (Ok msg, w') ->
  w' = with_intermediate
         (fun i => set_isolate_bt2_path (isolate_path // "isolates")
            (set_isolate_mapped_fastq_path (isolate_path // "mapped.fastq")
               (set_isolate_vta_path (isolate_path // "to_isolates.vta") i)))
         (with_files
            (<[isolate_path // "to_isolates.vta"
               := records_in ps cutoff
                    (spawn (map_isolates_command reads (isolate_path // "mapped.fastq")
                              (isolate_path // "isolates") proc))]>)
            (with_spawned
               (fun cs => (cs ++ [map_isolates_command reads
                                    (isolate_path // "mapped.fastq")
                                    (isolate_path // "isolates") proc])%list) w)).
Proof.
  unfold map_isolates, with_local, run_subprocess.
  unfold bind at 1. unfold on_world at 1, zoom at 1, modify at 1. cbn [fst snd].
  unfold bind at 1. unfold bind at 1. unfold on_world at 1, zoom at 1, modify at 1.
  cbn [fst snd].
  destruct (file_lens (isolate_path // "to_isolates.vta")) as (L1 & L2 & L3).
  rewrite (for_each_on_world_zoom _ _ _ _ L1 L2).
  2:{ eapply L3. cbn. apply lookup_insert_eq. }
  destruct (for_each (targeted_handler ps cutoff) _ _)
    as [[[]|e] f'] eqn:Hloop; cbn [fst snd]; [|discriminate].
  apply targeted_loop_returns in Hloop.
  unfold file_at in Hloop. cbn in Hloop. rewrite lookup_insert_eq in Hloop.
  cbn in Hloop. subst f'.
  run_world. intros [= _ <-]. unfold with_intermediate, with_files, with_spawned.
  cbn. by rewrite insert_insert_eq.
Qed.

(** The world that [map_subtractions] leaves when it returns. *)
Lemma map_subtractions_world (ps : Pathoscope) subtraction proc
    (w w' : World) msg mapped :
  isolate_mapped_fastq_path (intermediate w) = Some mapped ->
  map_subtractions decode spawn ps subtraction proc w = (Ok msg, w') ->
  exists table,
    for_each (host_handler ps)
      (spawn (map_subtractions_command subtraction mapped proc)) ∅ = (Ok tt, table)
    ∧ w' = with_intermediate (set_to_subtraction table)
             (with_spawned
                (fun cs => (cs ++ [map_subtractions_command subtraction mapped proc])%list)
                w).
Proof.
  intros Hm. unfold map_subtractions, with_local, run_subprocess.
  cbv beta iota delta [bind on_world zoom modify ret get getattr fst snd].
  rewrite Hm. rewrite for_each_on_local.
  destruct (for_each (host_handler ps) _ ∅) as [[[]|e] table]; cbn; [|discriminate].
  intros [= _ <-]. by exists table.
Qed.


(** X7.  A step that runs before the step that sets the attribute it
    reads raises [AttributeError] and leaves the world as it was: nothing
    is spawned and no collaborator is called. *)
Theorem step_without_its_attribute_raises
    (ps : Pathoscope) (index : @Index version) (subtraction : Subtraction)
    (isolate_path : Path) (proc : Z) (w : World) :
  (isolate_fasta_path (intermediate w) = None ->
     build_isolate_index spawn isolate_path proc w = (Raise AttributeError, w))
  ∧ (isolate_mapped_fastq_path (intermediate w) = None ->
     map_subtractions decode spawn ps subtraction proc w = (Raise AttributeError, w))
  ∧ (isolate_vta_path (intermediate w) = None ∨ to_subtraction (intermediate w) = None ->
     subtract_mapping ps isolate_path w = (Raise AttributeError, w))
  ∧ (isolate_vta_path (intermediate w) = None ->
     reassignment ps isolate_path index w = (Raise AttributeError, w)).
Proof.
  split; [|split; [|split]].
  - intros H. unfold build_isolate_index. run_world. by rewrite H.
  - intros H. unfold map_subtractions. run_world. by rewrite H.
  - intros H. unfold subtract_mapping. run_world.
    destruct (isolate_vta_path (intermediate w)); [|done].
    destruct H as [H|H]; [done|]. by rewrite H.
  - intros H. unfold reassignment. run_world. by rewrite H.
Qed.

Lemma comprehension_ok {A B} (f : A -> result B) xs ys :
  comprehension f xs = Ok ys -> Forall2 (fun x y => f x = Ok y) xs ys.
Proof.
  revert ys. induction xs as [|x xs IH]; intros ys; simpl.
  - intros [= <-]. constructor.
  - destruct (f x) as [y|] eqn:Hx; [|discriminate].
    destruct (comprehension f xs) as [ys'|]; [|discriminate].
    intros [= <-]. constructor; auto.
Qed.

Lemma comprehension_raises {A B} (f : A -> result B) xs e :
  comprehension f xs = Raise e -> exists x, x ∈ xs ∧ f x = Raise e.
Proof.
  induction xs as [|x xs IH]; simpl; [discriminate|].
  destruct (f x) as [y|e1] eqn:Hx.
  - destruct (comprehension f xs) as [ys'|e2]; [discriminate|].
    intros [= <-]. destruct IH as (x' & Hin & Hx'); [done|].
    exists x'. split; [by right|done].
  - intros [= <-]. exists x. split; [by left|done].
Qed.

Lemma comprehension_all_ok {A B} (f : A -> result B) xs :
  (forall x, x ∈ xs -> exists y, f x = Ok y) -> exists ys, comprehension f xs = Ok ys.
Proof.
  induction xs as [|x xs IH]; intros Hall; simpl; [eauto|].
  destruct (Hall x) as [y ->]; [by left|].
  destruct IH as [ys ->]; [|eauto].
  intros x' Hin. apply Hall. by right.
Qed.

(** X8.  When [write_isolate_fasta] returns, [index.write_isolate_fasta]
    was given one OTU id for every candidate, the OTU of that candidate,
    so that an OTU with two candidate sequences is listed twice; the table
    it returned is in [intermediate.lengths] and the candidate set is as it
    was. *)
Theorem write_isolate_fasta_lists_one_otu_per_candidate
    (index : @Index version) (proc : Z) (isolate_path : Path)
    (w w' : World) (msg : string) :
  write_isolate_fasta index proc isolate_path w = (Ok msg, w') ->
  let fasta_path := ATuple [APath (isolate_path // "isolate_index.fa")] in
  exists otu_ids table fs,
    Forall2 (fun sequence_id otu_id =>
               get_otu_id_by_sequence_id index sequence_id = Ok otu_id)
      (elements (to_otus (intermediate w))) otu_ids
    ∧ List.length otu_ids = size (to_otus (intermediate w))
    ∧ write_isolate_fasta_to index otu_ids fasta_path proc (files w) = Ok (table, fs)
    ∧ w' = with_intermediate
             (fun i => set_isolate_fasta_path fasta_path (set_lengths (Some table) i))
             (with_files (fun _ => fs) w).
Proof.
  unfold write_isolate_fasta. run_world.
  destruct (comprehension _ _) as [otu_ids|] eqn:Hc; [|discriminate].
  destruct (write_isolate_fasta_to _ _ _ _ _) as [[table fs]|] eqn:Hw; [|discriminate].
  intros [= _ <-]. exists otu_ids, table, fs.
  apply comprehension_ok in Hc. split; [done|]. split; [|done].
  symmetry. by apply Forall2_length in Hc.
Qed.

(** X9.  When the OTU of some candidate cannot be found,
    [write_isolate_fasta] raises the error of such a lookup and leaves the
    world as it was: no file is written and no length table is stored. *)
Theorem write_isolate_fasta_needs_every_otu
    (index : @Index version) (proc : Z) (isolate_path : Path)
    (w : World) (sequence_id : string) (e0 : exn) :
  sequence_id ∈ to_otus (intermediate w) ->
  get_otu_id_by_sequence_id index sequence_id = Raise e0 ->
  exists candidate e,
    candidate ∈ to_otus (intermediate w)
    ∧ get_otu_id_by_sequence_id index candidate = Raise e
    ∧ write_isolate_fasta index proc isolate_path w = (Raise e, w).
Proof.
  intros Hin Hraise. unfold write_isolate_fasta. run_world.
  destruct (comprehension _ _) as [otu_ids|e] eqn:Hc.
  - apply comprehension_ok in Hc.
    apply elem_of_elements in Hin.
    destruct (proj1 (list_elem_of_lookup _ _) Hin) as [i Hi].
    destruct (Forall2_lookup_l _ _ _ _ _ Hc Hi) as (y & _ & Hy). congruence.
  - apply comprehension_raises in Hc as (x & Hx & Hfx).
    exists x, e. split; [by apply elem_of_elements|]. done.
Qed.

(** The world that [subtract_mapping] leaves when it returns. *)
Lemma subtract_mapping_world (ps : Pathoscope) (isolate_path : Path)
    (w w' : World) (msg : string) :
  subtract_mapping ps isolate_path w = (Ok msg, w') ->
  exists vta table n fs1 fs2,
    isolate_vta_path (intermediate w) = Some vta
    ∧ to_subtraction (intermediate w) = Some table
    ∧ subtract ps vta (isolate_path // "subtracted.vta") table (files w) = Ok (n, fs1)
    ∧ replace_after_subtraction ps (isolate_path // "subtracted.vta") vta fs1
      = Ok (tt, fs2)
    ∧ w' = with_results (<["subtracted_count" := RInt n]>) (with_files (fun _ => fs2) w).
Proof.
  unfold subtract_mapping. run_world.
  destruct (isolate_vta_path (intermediate w)) as [vta|] eqn:Hvta; [|discriminate].
  destruct (to_subtraction (intermediate w)) as [table|]; [|discriminate].
  cbn [files].
  destruct (subtract ps vta _ table (files w)) as [[n fs1]|] eqn:Hsub; [|discriminate].
  change (intermediate (with_files (fun _ => fs1) w)) with (intermediate w).
  rewrite Hvta.
  change (files (with_files (fun _ => fs1) w)) with fs1.
  destruct (replace_after_subtraction ps _ vta fs1) as [[[] fs2]|] eqn:Hmove;
    [|discriminate].
  intros [= _ <-]. by exists vta, table, n, fs1, fs2.
Qed.

(** X10.  When [subtract_mapping] returns, [results] holds under
    [subtracted_count] the number that [subtract] returned and keeps its
    other entries; [intermediate] is as it was and nothing was spawned. *)
Theorem subtract_mapping_reports_the_count
    (ps : Pathoscope) (isolate_path : Path) (w w' : World) (msg : string) :
  subtract_mapping ps isolate_path w = (Ok msg, w') ->
  exists vta table n fs1,
    isolate_vta_path (intermediate w) = Some vta
    ∧ to_subtraction (intermediate w) = Some table
    ∧ subtract ps vta (isolate_path // "subtracted.vta") table (files w) = Ok (n, fs1)
    ∧ results w' !! "subtracted_count" = Some (RInt n)
    ∧ (forall key, key ≠ "subtracted_count" -> results w' !! key = results w !! key)
    ∧ intermediate w' = intermediate w
    ∧ spawned w' = spawned w.
Proof.
  intros H.
  apply subtract_mapping_world in H as (vta & table & n & fs1 & fs2 & ? & ? & ? & ? & ->).
  exists vta, table, n, fs1. repeat (split; [done|]). cbn.
  split; [by rewrite lookup_insert_eq|]. split; [|done].
  intros key Hkey. by rewrite lookup_insert_ne.
Qed.

(** X11.  When [subtract] raises, [subtract_mapping] raises the same
    error with the world as it was.  When [replace_after_subtraction]
    raises, the files are as [subtract] left them and no count is
    reported in [results]. *)
Theorem subtract_mapping_failure_reports_no_count
    (ps : Pathoscope) (isolate_path : Path) (w : World) (vta : Path)
    (table : gmap string score) (e : exn) :
  isolate_vta_path (intermediate w) = Some vta ->
  to_subtraction (intermediate w) = Some table ->
  (subtract ps vta (isolate_path // "subtracted.vta") table (files w) = Raise e ->
     subtract_mapping ps isolate_path w = (Raise e, w))
  ∧ (forall n fs1,
       subtract ps vta (isolate_path // "subtracted.vta") table (files w) = Ok (n, fs1) ->
       replace_after_subtraction ps (isolate_path // "subtracted.vta") vta fs1 = Raise e ->
       subtract_mapping ps isolate_path w = (Raise e, with_files (fun _ => fs1) w)).
Proof.
  intros Hvta Htable. split.
  - intros Hsub. unfold subtract_mapping. run_world.
    rewrite Hvta, Htable. cbn [files]. by rewrite Hsub.
  - intros n fs1 Hsub Hmove. unfold subtract_mapping. run_world.
    rewrite Hvta, Htable. cbn [files]. rewrite Hsub.
    change (intermediate (with_files (fun _ => fs1) w)) with (intermediate w).
    rewrite Hvta.
    change (files (with_files (fun _ => fs1) w)) with fs1.
    by rewrite Hmove.
Qed.

Lemma path_div_inj (p : Path) (a b : string) : p // a = p // b -> a = b.
Proof.
  unfold path_div. intros H. apply app_inv_head in H. by injection H.
Qed.

(** X12.  The targeted pass, the host-subtraction pass and
    [subtract_mapping] in a row: [subtract] reads the file
    [to_isolates.vta] when it holds the records of the targeted pass,
    writes to the other file [subtracted.vta], and is given the table of
    the host-subtraction pass. *)
Theorem subtraction_is_given_the_records_and_the_table
    (ps : Pathoscope) (reads : Reads) (isolate_path : Path) (proc : Z)
    (cutoff : score) (subtraction : Subtraction)
    (w0 w1 w2 w3 : World) (msg1 msg2 msg3 : string) :
  map_isolates decode score_lt str_score spawn ps reads isolate_path proc cutoff w0
    = (Ok msg1, w1) ->
  map_subtractions decode spawn ps subtraction proc w1 = (Ok msg2, w2) ->
  subtract_mapping ps isolate_path w2 = (Ok msg3, w3) ->
  let vta_path := isolate_path // "to_isolates.vta" in
  let output_path := isolate_path // "subtracted.vta" in
  let mapped := isolate_path // "mapped.fastq" in
  let targeted := map_isolates_command reads mapped (isolate_path // "isolates") proc in
  let host := map_subtractions_command subtraction mapped proc in
  exists table n fs1,
    for_each (host_handler ps) (spawn host) ∅ = (Ok tt, table)
    ∧ subtract ps vta_path output_path table
        (<[vta_path := records_in ps cutoff (spawn targeted)]> (files w0))
      = Ok (n, fs1)
    ∧ vta_path ≠ output_path
    ∧ results w3 !! "subtracted_count" = Some (RInt n).
Proof.
  intros H1 H2 H3 vta_path output_path mapped targeted host.
  apply map_isolates_world in H1. subst w1.
  eapply map_subtractions_world in H2 as (table & Hloop & Hw2); [|reflexivity].
  subst w2.
  apply subtract_mapping_world in H3
    as (vta & table' & n & fs1 & fs2 & Hvta & Htable & Hsub & _ & ->).
  cbn in Hvta, Htable, Hsub. injection Hvta as <-. injection Htable as <-.
  exists table, n, fs1. split; [done|]. split; [done|]. split.
  - intros H. apply path_div_inj in H. discriminate.
  - cbn. by rewrite lookup_insert_eq.
Qed.

(** What the body of the loop over the report builds when it returns. *)
Lemma reassignment_hit_returns (index : @Index version) sid hit h (w w' : World) :
  reassignment_hit index sid hit w = (Ok h, w') ->
  w' = w
  ∧ exists otu_id v cov hit_coverage c d,
      get_otu_id_by_sequence_id index sid = Ok otu_id
      ∧ manifest index !! otu_id = Some v
      ∧ coverage (intermediate w) = Some cov
      ∧ subscript cov sid = Ok hit_coverage
      ∧ hit_coverage_value hit_coverage = Ok c
      ∧ hit_depth_value hit_coverage = Ok d
      ∧ h = <["depth" := HInt d]> (<["coverage" := HFloat c]>
              (<["otu" := HOtu otu_id v]> (<["id" := HStr sid]> hit))).
Proof.
  unfold reassignment_hit, dict_getitem. run_world.
  destruct (get_otu_id_by_sequence_id index sid) as [otu_id|]; [|discriminate].
  destruct (manifest index !! otu_id) as [v|] eqn:Hv; [|discriminate].
  destruct (coverage (intermediate w)) as [cov|]; [|discriminate].
  destruct (subscript cov sid) as [hit_coverage|] eqn:Hsub; [|discriminate].
  destruct (hit_coverage_value hit_coverage) as [c|] eqn:Hc; [|discriminate].
  destruct (hit_depth_value hit_coverage) as [d|] eqn:Hd; [|discriminate].
  intros [= <- <-]. split; [done|].
  by exists otu_id, v, cov, hit_coverage, c, d.
Qed.

(** The hit that the loop builds from the entry [(sid, hit)]. *)
Lemma reassignment_hits_returns (index : @Index version) report :
  forall hits0 hits (w w' : World),
    reassignment_hits index report hits0 w = (Ok hits, w') ->
    w' = w
    ∧ exists built,
        hits = (hits0 ++ built)%list
        ∧ Forall2 (fun entry h => reassignment_hit index (fst entry) (snd entry) w = (Ok h, w))
            report built.
Proof.
  induction report as [|[sid hit] report IH]; intros hits0 hits w w' Hrun.
  - simpl in Hrun. injection Hrun as <- <-. split; [done|].
    exists []. split; [by rewrite app_nil_r|constructor].
  - simpl in Hrun. unfold bind in Hrun.
    destruct (reassignment_hit index sid hit w) as [[h|e] w1] eqn:Hh; [|discriminate].
    destruct (reassignment_hit_returns index sid hit h w w1 Hh) as [-> _].
    destruct (IH _ _ _ _ Hrun) as (-> & built & -> & Hall).
    split; [done|]. exists (h :: built). split; [by rewrite <- app_assoc|].
    by constructor.
Qed.



(** X15.  With an empty report [reassignment] returns: [results] gets
    [ready], the number of reads that [run_patho] returned and an empty
    list of hits, and [intermediate.coverage] is left holding the awaitable
    of the coverage computation, which is never awaited. *)
Theorem reassignment_of_an_empty_report
    (ps : Pathoscope) (isolate_path : Path) (index : @Index version) (w : World)
    (vta : Path) (out : PathoOutput) (fs1 fs2 : Files) :
  isolate_vta_path (intermediate w) = Some vta ->
  run_patho ps vta (isolate_path // "reassigned.vta") (files w) = Ok (out, fs1) ->
  write_report ps (isolate_path // "report.tsv")
    (pi out) (refs out) (len_list (reads out)) (init_pi out)
    (best_hit_initial out) (best_hit_initial_reads out)
    (best_hit_final out) (best_hit_final_reads out)
    (level_1_initial out) (level_2_initial out)
    (level_1_final out) (level_2_final out) fs1
    = Ok ([], fs2) ->
  exists w',
    reassignment ps isolate_path index w = (Ok tt, w')
    ∧ results w'
      = <["results" := RHits []]>
          (<["read_count" := RInt (len_list (reads out))]>
             (<["ready" := RBool true]> (results w)))
    ∧ files w' = fs2
    ∧ coverage (intermediate w')
      = Some (CovAwaitable (run_in_executor
          (calculate_coverage ps (isolate_path // "reassigned.vta")
             (lengths (intermediate w))))).
Proof.
  intros Hvta Hrun Hrep.
  unfold reassignment, reassignment_report. run_world.
  rewrite Hvta. cbn [files]. rewrite Hrun. cbn [files with_files].
  rewrite Hrep. cbn [reassignment_hits]. run_world.
  eexists. split; [reflexivity|]. done.
Qed.

End Loops.

(** ** More on coverage and depth *)

Lemma round_eq (x y : Q) : (x == y)%Q -> round x = round y.
Proof.
  intros H. unfold round. rewrite (Qfloor_comp x y H).
  assert (Hc : (x - inject_Z (Qfloor y) ?= 1 # 2)%Q = (y - inject_Z (Qfloor y) ?= 1 # 2)%Q).
  { apply Qcompare_comp; [by rewrite H|reflexivity]. }
  by rewrite Hc.
Qed.

Lemma round_between (x : Q) (lo hi : Z) :
  (inject_Z lo <= x <= inject_Z hi)%Q -> lo <= round x <= hi.
Proof.
  intros [Hlo Hhi]. pose proof (round_nearest x) as [Hl Hu].
  split.
  - assert (H : (inject_Z (lo - 1) < inject_Z (round x))%Q).
    { unfold Z.sub. rewrite inject_Z_plus, inject_Z_opp.
      change (inject_Z 1) with 1%Q. lra. }
    rewrite <- Zlt_Qlt in H. lia.
  - assert (H : (inject_Z (round x) < inject_Z (hi + 1))%Q).
    { rewrite inject_Z_plus. change (inject_Z 1) with 1%Q. lra. }
    rewrite <- Zlt_Qlt in H. lia.
Qed.

Lemma count0_all_zero (xs : list Z) :
  Forall (fun x => x = 0) xs -> count0 xs = len_list xs ∧ sum xs = 0.
Proof.
  unfold count0, len_list. induction 1 as [|x xs -> _ [IH1 IH2]]; [done|].
  simpl. split; [|exact IH2]. apply Nat2Z.inj in IH1. by rewrite IH1.
Qed.

Lemma count0_no_zero (xs : list Z) :
  Forall (fun x => x ≠ 0) xs -> count0 xs = 0.
Proof.
  unfold count0. induction 1 as [|x xs Hx _ IH]; [done|].
  simpl. apply Z.eqb_neq in Hx. by rewrite Hx.
Qed.

Lemma sum_between (lo hi : Z) (xs : list Z) :
  Forall (fun x => lo <= x <= hi) xs ->
  lo * len_list xs <= sum xs <= hi * len_list xs.
Proof.
  unfold len_list. induction 1 as [|x xs Hx _ IH]; [simpl; lia|].
  cbn [sum fold_right List.length]. fold (sum xs). lia.
Qed.

(** X16.  For an array that is not empty: when every depth is zero the
    coverage is 0 and the depth is 0; when no depth is zero the coverage
    is 1. *)
Theorem coverage_of_uniform_arrays (hit_coverage : list Z) :
  hit_coverage ≠ [] ->
  (Forall (fun x => x = 0) hit_coverage ->
     hit_coverage_value hit_coverage = Ok (0 # 1000)%Q
     ∧ hit_depth_value hit_coverage = Ok 0)
  ∧ (Forall (fun x => x ≠ 0) hit_coverage ->
     hit_coverage_value hit_coverage = Ok (1000 # 1000)%Q).
Proof.
  intros Hne.
  assert (Hlen : 0 < len_list hit_coverage).
  { unfold len_list. destruct hit_coverage; [done|]. simpl. lia. }
  assert (Hz : (len_list hit_coverage =? 0)%Z = false) by (apply Z.eqb_neq; lia).
  assert (Hn : ¬ (inject_Z (len_list hit_coverage) == 0)%Q).
  { change 0%Q with (inject_Z 0). rewrite inject_Z_injective. lia. }
  unfold hit_coverage_value, hit_depth_value, truediv, round3. rewrite Hz.
  split.
  - intros Hall. destruct (count0_all_zero _ Hall) as [-> ->]. split.
    + do 2 f_equal. change 0 with (round 0). apply round_eq. field; exact Hn.
    + f_equal; change 0 with (round 0) at 2; apply round_eq; field; exact Hn.
  - intros Hall. rewrite (count0_no_zero _ Hall).
    rewrite (round_eq _ (inject_Z 1000)); [done|]. field; exact Hn.
Qed.


(** ** Records and arguments as text *)

Lemma split_without_comma (x : string) :
  has_comma x = false -> split "," x = [x].
Proof.
  induction x as [|c x IH]; simpl; [done|].
  intros H. apply orb_false_iff in H as [Hc Hx].
  rewrite Hc, (IH Hx). done.
Qed.

Lemma split_at_comma (x rest : string) :
  has_comma x = false ->
  split "," (x +:+ String "," rest) = x :: split "," rest.
Proof.
  induction x as [|c x IH]; simpl; [done|].
  intros H. apply orb_false_iff in H as [Hc Hx].
  rewrite Hc, (IH Hx). done.
Qed.

Lemma split_join (xs : list string) :
  xs ≠ [] -> Forall (fun x => has_comma x = false) xs ->
  split "," (join "," xs) = xs.
Proof.
  intros Hne Hall. induction Hall as [|x xs Hx Hxs IH]; [done|].
  destruct xs as [|y ys].
  - simpl. by apply split_without_comma.
  - change (join "," (x :: y :: ys)) with (x +:+ String "," (join "," (y :: ys))).
    rewrite split_at_comma by done. by rewrite IH.
Qed.

Lemma pretty_N_go_no_comma (x : N) (s : string) :
  has_comma (pretty_N_go x s) = has_comma s.
Proof.
  revert s. induction (N.lt_wf_0 x) as [x _ IH]; intros s.
  assert (x = 0 ∨ 0 < x)%N as [->|Hx] by lia.
  - by rewrite pretty_N_go_0.
  - rewrite pretty_N_go_step by done. rewrite IH by (by apply N.div_lt).
    simpl. unfold pretty_N_char. by repeat case_match.
Qed.

Lemma str_int_no_comma (z : Z) : has_comma (str_int z) = false.
Proof.
  unfold str_int, pretty, pretty_Z. destruct z as [|p|p]; [done|..].
  - unfold pretty, pretty_positive, pretty, pretty_N. case_decide; [done|].
    by rewrite pretty_N_go_no_comma.
  - change (has_comma (String "-" (pretty p)) = false).
    cbn [has_comma]. change (Ascii.eqb "-" ",") with false. cbn [orb].
    unfold pretty, pretty_positive, pretty, pretty_N. case_decide; [done|].
    by rewrite pretty_N_go_no_comma.
Qed.

Lemma escape_quotes_length (s : string) :
  (String.length s <= String.length (escape_quotes s))%nat.
Proof.
  induction s as [|c s IH]; simpl; [lia|].
  destruct (Ascii.eqb c "'"); simpl; lia.
Qed.

Lemma append_length (a b : string) :
  String.length (a +:+ b) = (String.length a + String.length b)%nat.
Proof. induction a as [|c a IH]; simpl; [done|]. by rewrite IH. Qed.

(** X19.  The host index goes to the aligner as the text of its path only
    when that text is not empty and has none but safe characters.
    Otherwise the argument is the text between single quotes, which is
    another text: the command is a list, and no shell takes the quotes
    away. *)
Theorem host_index_argument_is_quoted
    (subtraction : Subtraction) (mapped : Path) (proc : Z) :
  let text := str_path (subtraction_path subtraction) in
  let argument := nth_error (map_subtractions_command subtraction mapped proc) 7 in
  (text ≠ EmptyString ∧ all_safe text = true -> argument = Some (AStr text))
  ∧ (text = EmptyString ∨ all_safe text = false ->
     exists quoted, argument = Some (AStr (String "'" quoted))
                    ∧ String "'" quoted ≠ text).
Proof.
  intros text argument. unfold argument. cbn [map_subtractions_command nth_error].
  fold text. unfold shlex_quote. split.
  - intros [Hne Hsafe]. destruct text; [done|]. by rewrite Hsafe.
  - intros [->|Hunsafe]; [by exists "'"|].
    destruct text as [|c t] eqn:Ht; [done|]. rewrite Hunsafe.
    eexists. split; [reflexivity|].
    intros H. apply (f_equal String.length) in H. revert H.
    cbn [String.length append]. rewrite append_length.
    pose proof (escape_quotes_length (String c t)) as Hlen.
    cbn [String.length] in *. lia.
Qed.

Section Records.

Context {score pdata stat version : Type}.
Variable decode : string -> result string.
Variable score_lt : score -> score -> bool.
Variable str_score : score -> string.


End Records.

(** ** The further statements at the concrete run *)

(** Both sides of an equation evaluate to one value. *)
Ltac by_evaluation :=
  match goal with
  | |- _ = ?rhs => vm_cast_no_check (@eq_refl _ rhs)
  end.


Lemma candidate_set_ignores_the_order_witness :
  for_each (map_default_isolates_stdout_handler Sample.decode Sample.score_lt
              Sample.pathoscope Sample.p_score_cutoff)
    [Sample.alignment "r2" "5"; Sample.alignment "r1" "8"] ∅
  = (Ok tt, {[ "ref1" ]}).
Proof.
  apply (candidate_set_ignores_the_order
           Sample.decode Sample.score_lt Sample.str_score
           Sample.pathoscope Sample.p_score_cutoff
           [Sample.alignment "r1" "8"; Sample.alignment "r2" "5"]).
  - apply perm_swap.
  - vm_compute. reflexivity.
Defined.

Lemma first_pass_stops_at_the_raising_line_witness :
  exists w',
    map_default_isolates Sample.decode Sample.score_lt Sample.spawn_bad Sample.format_set
      Sample.pathoscope Sample.reads Sample.index 4 Sample.p_score_cutoff Sample.world0
    = (Raise IndexError, w')
    ∧ to_otus (intermediate w') = {[ "ref1" ]}.
Proof.
  eexists. split.
  - apply (first_pass_stops_at_the_raising_line
             Sample.decode Sample.score_lt Sample.str_score Sample.spawn_bad
             Sample.format_set Sample.pathoscope Sample.reads Sample.index 4
             Sample.p_score_cutoff Sample.world0
             [Sample.alignment "r1" "8"] [Sample.alignment "r2" "5"] "garbage").
    + reflexivity.
    + repeat constructor.
    + reflexivity.
  - vm_compute. reflexivity.
Defined.




Lemma step_without_its_attribute_raises_witness :
  build_isolate_index Sample.spawn Sample.isolate_path 4 Sample.world0
  = (Raise AttributeError, Sample.world0)
  ∧ reassignment Sample.pathoscope Sample.isolate_path Sample.index Sample.world0
    = (Raise AttributeError, Sample.world0).
Proof.
  destruct (step_without_its_attribute_raises
              Sample.decode Sample.spawn Sample.pathoscope Sample.index
              Sample.subtraction Sample.isolate_path 4 Sample.world0)
    as (H1 & _ & _ & H4).
  split; [apply H1|apply H4]; reflexivity.
Defined.

Lemma write_isolate_fasta_lists_one_otu_per_candidate_witness :
  exists w',
    write_isolate_fasta Sample.index 4 Sample.isolate_path Sample.world_candidates
    = (Ok "Produced isolate fasta file.", w')
    ∧ exists otu_ids,
        Forall2 (fun sequence_id otu_id =>
                   get_otu_id_by_sequence_id Sample.index sequence_id = Ok otu_id)
          (elements (to_otus (intermediate Sample.world_candidates))) otu_ids
        ∧ List.length otu_ids = 1%nat.
Proof.
  set (r := write_isolate_fasta Sample.index 4 Sample.isolate_path
              Sample.world_candidates).
  assert (H : r = (Ok "Produced isolate fasta file.", snd r)).
  { vm_compute. reflexivity. }
  destruct (write_isolate_fasta_lists_one_otu_per_candidate
              Sample.index 4 Sample.isolate_path Sample.world_candidates (snd r) _ H)
    as (otu_ids & table & fs & Hall & Hlen & _).
  exists (snd r). split; [exact H|]. exists otu_ids. split; [exact Hall|].
  rewrite Hlen. vm_compute. reflexivity.
Defined.

Lemma write_isolate_fasta_needs_every_otu_witness :
  exists candidate e,
    candidate ∈ to_otus (intermediate Sample.world_unknown)
    ∧ get_otu_id_by_sequence_id Sample.index candidate = Raise e
    ∧ write_isolate_fasta Sample.index 4 Sample.isolate_path Sample.world_unknown
      = (Raise e, Sample.world_unknown).
Proof.
  apply (write_isolate_fasta_needs_every_otu
           Sample.index 4 Sample.isolate_path Sample.world_unknown "ref9" KeyError).
  - apply elem_of_singleton. reflexivity.
  - reflexivity.
Defined.

Lemma subtract_mapping_reports_the_count_witness :
  exists w',
    subtract_mapping Sample.pathoscope Sample.isolate_path Sample.world_mapped
    = (Ok "Performed subtraction on subtraction mapped reads.", w')
    ∧ results w' !! "subtracted_count" = Some (RInt 1)
    ∧ intermediate w' = intermediate Sample.world_mapped
    ∧ spawned w' = spawned Sample.world_mapped.
Proof.
  set (r := subtract_mapping Sample.pathoscope Sample.isolate_path Sample.world_mapped).
  assert (H : r = (Ok "Performed subtraction on subtraction mapped reads.", snd r)).
  { vm_compute. reflexivity. }
  destruct (subtract_mapping_reports_the_count
              Sample.pathoscope Sample.isolate_path Sample.world_mapped (snd r) _ H)
    as (vta & table & n & fs1 & _ & _ & _ & _ & _ & Hi & Hs).
  exists (snd r). split; [exact H|]. split; [|split; [exact Hi|exact Hs]].
  vm_compute. reflexivity.
Defined.

Lemma subtract_mapping_failure_reports_no_count_witness :
  subtract_mapping Sample.pathoscope_stuck Sample.isolate_path Sample.world_mapped
  = (Raise (ExternalError "OSError"),
     with_files
       (fun _ => <[Sample.isolate_path // "subtracted.vta"
                   := ["r1,ref1,7,4,12.0" +:+ newline]]> (files Sample.world_mapped))
       Sample.world_mapped).
Proof.
  destruct (subtract_mapping_failure_reports_no_count
              Sample.pathoscope_stuck Sample.isolate_path Sample.world_mapped
              (Sample.isolate_path // "to_isolates.vta") {[ "r2" := 9%Q ]}
              (ExternalError "OSError") eq_refl eq_refl) as [_ H].
  apply (H 1).
  - by_evaluation.
  - reflexivity.
Defined.

Lemma subtraction_is_given_the_records_and_the_table_witness :
  exists w1 w2 w3,
    map_isolates Sample.decode Sample.score_lt Sample.str_score Sample.spawn
      Sample.pathoscope Sample.reads Sample.isolate_path 4 Sample.p_score_cutoff
      Sample.world_candidates
    = (Ok "Mapped sample reads to isolate index.", w1)
    ∧ map_subtractions Sample.decode Sample.spawn Sample.pathoscope
        Sample.subtraction 4 w1
      = (Ok "Mapped reads to the subtraction host.", w2)
    ∧ subtract_mapping Sample.pathoscope Sample.isolate_path w2
      = (Ok "Performed subtraction on subtraction mapped reads.", w3)
    ∧ exists n, results w3 !! "subtracted_count" = Some (RInt n).
Proof.
  set (r1 := map_isolates Sample.decode Sample.score_lt Sample.str_score Sample.spawn
      Sample.pathoscope Sample.reads Sample.isolate_path 4 Sample.p_score_cutoff
      Sample.world_candidates).
  set (r2 := map_subtractions Sample.decode Sample.spawn Sample.pathoscope
        Sample.subtraction 4 (snd r1)).
  set (r3 := subtract_mapping Sample.pathoscope Sample.isolate_path (snd r2)).
  assert (H1 : r1 = (Ok "Mapped sample reads to isolate index.", snd r1)).
  { vm_compute. reflexivity. }
  assert (H2 : r2 = (Ok "Mapped reads to the subtraction host.", snd r2)).
  { vm_compute. reflexivity. }
  assert (H3 : r3 = (Ok "Performed subtraction on subtraction mapped reads.", snd r3)).
  { vm_compute. reflexivity. }
  destruct (subtraction_is_given_the_records_and_the_table
              Sample.decode Sample.score_lt Sample.str_score Sample.spawn
              Sample.pathoscope Sample.reads Sample.isolate_path 4
              Sample.p_score_cutoff Sample.subtraction
              Sample.world_candidates (snd r1) (snd r2) (snd r3) _ _ _ H1 H2 H3)
    as (table & n & fs1 & _ & _ & _ & Hr).
  exists (snd r1), (snd r2), (snd r3). eauto.
Defined.



Lemma reassignment_of_an_empty_report_witness :
  exists w',
    reassignment Sample.pathoscope_silent Sample.isolate_path Sample.index
      Sample.world_mapped
    = (Ok tt, w')
    ∧ results w' !! "read_count" = Some (RInt 2)
    ∧ results w' !! "results" = Some (RHits []).
Proof.
  destruct (reassignment_of_an_empty_report
              Sample.pathoscope_silent Sample.isolate_path Sample.index
              Sample.world_mapped
              (Sample.isolate_path // "to_isolates.vta")
              (Sample.patho_output ["r1"; "r2"])
              (<[Sample.isolate_path // "reassigned.vta" :=
                   ["r1,ref1,7,4,12.0" +:+ newline; "r2,ref1,7,4,9.0" +:+ newline]]>
                 (files Sample.world_mapped))
              (<[Sample.isolate_path // "report.tsv" := []]>
                 (<[Sample.isolate_path // "reassigned.vta" :=
                      ["r1,ref1,7,4,12.0" +:+ newline; "r2,ref1,7,4,9.0" +:+ newline]]>
                    (files Sample.world_mapped))))
    as (w' & Hr & Hres & _).
  - reflexivity.
  - by_evaluation.
  - by_evaluation.
  - exists w'. split; [exact Hr|]. rewrite Hres. split; vm_compute; reflexivity.
Defined.

Lemma coverage_of_uniform_arrays_witness :
  hit_coverage_value [0; 0] = Ok (0 # 1000)%Q
  ∧ hit_depth_value [0; 0] = Ok 0
  ∧ hit_coverage_value [3; 1] = Ok (1000 # 1000)%Q.
Proof.
  assert (H1 : [0; 0] ≠ @nil Z) by discriminate.
  assert (H2 : [3; 1] ≠ @nil Z) by discriminate.
  destruct (coverage_of_uniform_arrays [0; 0] H1) as [Ha _].
  destruct (coverage_of_uniform_arrays [3; 1] H2) as [_ Hb].
  destruct Ha as [Hc Hd]; [by repeat constructor|].
  split; [exact Hc|]. split; [exact Hd|].
  apply Hb. by repeat constructor.
Defined.



Lemma host_index_argument_is_quoted_witness :
  nth_error (map_subtractions_command Sample.subtraction
               (Sample.isolate_path // "mapped.fastq") 4) 7
  = Some (AStr "work/subtractions/host").
Proof.
  destruct (host_index_argument_is_quoted Sample.subtraction
              (Sample.isolate_path // "mapped.fastq") 4) as [H _].
  apply H. split; [discriminate|reflexivity].
Defined.
